(** * ESPHome Desktop: first-run setup script (resources/scripts/setup_venv.py)

    A shallow embedding of [setup_venv.py] and the properties of its
    provisioning pipeline: environment creation, the two installer
    invocations, the PlatformIO configuration file and the verification
    step, together with the exception handling of [main].

    The script talks to three pieces of the outside world, which are
    modelled explicitly:
    - the filesystem, a finite map from rendered paths to nodes;
    - child processes, answered by the host ([host_run]);
    - the script's standard output, a list of terminal events.

    [main] is modelled from the parsed command line on ([parse_args] is
    [argparse]'s). Text is ASCII; permissions, quotas and signals
    delivered to the script itself are outside the model. *)

From Stdlib Require Import ZArith List Ascii String Bool Lia.
From stdpp Require Import base option gmap strings pretty.
Import ListNotations.

Local Open Scope string_scope.
Local Open Scope Z_scope.

(** ** Python text primitives used by the script *)

Module Py.

(** The characters [str.strip()] removes: ASCII white space. *)
Definition is_space (c : ascii) : bool :=
  let n := nat_of_ascii c in
  ((9 <=? n) && (n <=? 13) || (28 <=? n) && (n <=? 32))%nat.

Fixpoint lstrip (s : string) : string :=
  match s with
  | String c s' => if is_space c then lstrip s' else s
  | EmptyString => EmptyString
  end.

Fixpoint rstrip (s : string) : string :=
  match s with
  | String c s' =>
      match rstrip s' with
      | EmptyString => if is_space c then EmptyString else String c EmptyString
      | r => String c r
      end
  | EmptyString => EmptyString
  end.

(** [s.strip()] *)
Definition strip (s : string) : string := rstrip (lstrip s).

Fixpoint contains (c : ascii) (s : string) : bool :=
  match s with
  | String d s' => if Ascii.eqb c d then true else contains c s'
  | EmptyString => false
  end.

Definition squote : ascii := "039"%char.
Definition dquote : ascii := "034"%char.
Definition backslash : ascii := "092"%char.

Definition hex_digit (n : nat) : ascii :=
  ascii_of_nat (if (n <? 10)%nat then 48 + n else 87 + n)%nat.

(** One character of [repr(s)] for the chosen quote [q]. *)
Definition repr_char (q c : ascii) : string :=
  let n := nat_of_ascii c in
  if Ascii.eqb c q || Ascii.eqb c backslash then String backslash (String c EmptyString)
  else if (n =? 9)%nat then String backslash "t"
  else if (n =? 10)%nat then String backslash "n"
  else if (n =? 13)%nat then String backslash "r"
  else if (n <? 32)%nat || (n =? 127)%nat then
    String backslash (String "x" (String (hex_digit (n / 16)) (String (hex_digit (n mod 16)) EmptyString)))
  else String c EmptyString.

Fixpoint repr_body (q : ascii) (s : string) : string :=
  match s with
  | String c s' => repr_char q c ++ repr_body q s'
  | EmptyString => EmptyString
  end.

(** [repr(s)] of a [str]: single quotes, unless the text holds a single
    quote and no double quote. *)
Definition repr (s : string) : string :=
  let q := if contains squote s && negb (contains dquote s) then dquote else squote in
  String q (repr_body q s ++ String q EmptyString).

Fixpoint join (sep : string) (l : list string) : string :=
  match l with
  | [] => EmptyString
  | [x] => x
  | x :: l' => x ++ sep ++ join sep l'
  end.

(** [str(l)] of a list of [str]. *)
Definition repr_list (l : list string) : string :=
  "[" ++ join ", " (map repr l) ++ "]".

(** ["%d" % z] *)
Definition dec (z : Z) : string := pretty z.

(** [needle in hay] *)
Definition occurs (needle hay : string) : bool :=
  match String.index 0 needle hay with
  | Some _ => true
  | None => false
  end.

End Py.

(** ** Paths (pathlib) *)

(** A resolved [pathlib.Path]: its anchor (["/"], or a drive with its root)
    and the components below it. *)
Record Path := mkPath { anchor : string; parts : list string }.

(** [p / name] for a single relative component. *)
Definition joinpath (p : Path) (name : string) : Path :=
  mkPath (anchor p) (parts p ++ [name])%list.

Notation "p // name" := (joinpath p name) (at level 40, left associativity).

(** [p.parent]; the anchor is its own parent. *)
Definition parent (p : Path) : Path :=
  mkPath (anchor p) (removelast (parts p)).

(** The path with anchor [a] and components [rev rparts], its parent, and
    so on up to the anchor. *)
Fixpoint lineage_rev (a : string) (rparts : list string) : list Path :=
  mkPath a (rev rparts)
  :: match rparts with
     | [] => []
     | _ :: rest => lineage_rev a rest
     end.

Definition lineage (p : Path) : list Path := lineage_rev (anchor p) (rev (parts p)).

(** ** Exceptions *)

Inductive os_errno := EEXIST | ENOENT | ENOTDIR | EISDIR.

Inductive exception :=
| CalledProcessError (cmd : list string) (returncode : Z) (output stderr : option string)
| OSError (errno : os_errno) (filename : string)
| OtherException (cls msg : string).

Definition is_CalledProcessError (e : exception) : bool :=
  match e with CalledProcessError _ _ _ _ => true | _ => false end.

Inductive result (A : Type) :=
| Ok (a : A)
| Raise (e : exception).
Arguments Ok {A} a.
Arguments Raise {A} e.

(** ** The filesystem and the terminal *)

(** A node is a directory or a regular file with its text, as text mode
    writes and reads it. *)
Inductive node := Dir | File (content : string).

(** What reaches the terminal: a line printed by the script, or the output
    of a child process that inherited the script's standard streams. *)
Inductive term_event :=
| Printed (line : string)
| ChildOutput (out err : string).

(** The keyword arguments the script passes to [subprocess.run]; it never
    passes [cwd], so [cwd] stays [None] and the child starts in the
    script's own working directory. *)
Record invocation := mkInv {
  args : list string;
  capture_output : bool;
  text : bool;
  check : bool;
  cwd : option string
}.

(** How a child process ended: it exited with a status and what it wrote,
    or [subprocess.run] itself raised (the executable is missing, the
    output does not decode, ...). *)
Inductive outcome :=
| Exited (status : Z) (out err : string)
| RunRaised (cls msg : string).

Record world := mkWorld {
  fs : gmap string node;
  term : list term_event;
  calls : list (invocation * outcome)
}.

(** The host the script runs on. *)
Record host := mkHost {
  (** [sys.platform] *)
  sys_platform : string;
  (** [Path(s).resolve()] of a command-line argument *)
  path_resolve : string -> Path;
  (** the answer to a child process, and the filesystem it leaves *)
  host_run : gmap string node -> invocation -> outcome * gmap string node;
  (** [repr(signal.Signals(n))] where [n] is a signal of the host *)
  signal_repr : Z -> option string;
  (** the errno part of an [OSError] message, like "[Errno 17] File exists" *)
  os_strerror : os_errno -> string
}.

(** A computation of the script: it reads and changes the world and
    either returns or raises. *)
Definition M (A : Type) : Type := world -> result A * world.

Definition ret {A} (a : A) : M A := fun w => (Ok a, w).
Definition raise {A} (e : exception) : M A := fun w => (Raise e, w).
Definition bind {A B} (m : M A) (k : A -> M B) : M B :=
  fun w => match m w with
           | (Ok a, w') => k a w'
           | (Raise e, w') => (Raise e, w')
           end.

Notation "'let!' x := m 'in' k" := (bind m (fun x => k))
  (at level 10, x name, m at level 100, k at level 200).
Notation "'run!' m 'in' k" := (bind m (fun _ => k))
  (at level 10, m at level 100, k at level 200).

(** [try: body except Exception as e: handler(e)] *)
Definition try_except {A} (body : M A) (handler : exception -> M A) : M A :=
  fun w => match body w with
           | (Ok a, w') => (Ok a, w')
           | (Raise e, w') => handler e w'
           end.

Section Script.

Variable h : host.

(** The separator of the host's path flavour: Windows paths exactly when
    [sys.platform] is win32. *)
Definition is_win32 : bool := String.eqb (sys_platform h) "win32".

Definition sep : string := if is_win32 then String Py.backslash EmptyString else "/".

(** [str(p)] *)
Definition Path_str (p : Path) : string := anchor p ++ Py.join sep (parts p).

(** [str(e)] *)
Definition exception_str (e : exception) : string :=
  match e with
  | CalledProcessError cmd rc _ _ =>
      if rc <? 0 then
        match signal_repr h (- rc) with
        | Some s => "Command '" ++ Py.repr_list cmd ++ "' died with " ++ s ++ "."
        | None => "Command '" ++ Py.repr_list cmd ++ "' died with unknown signal "
                    ++ Py.dec (- rc) ++ "."
        end
      else "Command '" ++ Py.repr_list cmd ++ "' returned non-zero exit status "
             ++ Py.dec rc ++ "."
  | OSError errno filename => os_strerror h errno ++ ": " ++ Py.repr filename
  | OtherException _ msg => msg
  end.

(** *** Filesystem calls

    A filesystem call changes the filesystem only: it maps the
    filesystem to a result and the filesystem it leaves. *)

(** The node a path names; the anchor always is a directory. *)
Definition node_at (p : Path) (f : gmap string node) : option node :=
  match parts p with
  | [] => Some Dir
  | _ => f !! Path_str p
  end.

Definition is_dir (p : Path) (f : gmap string node) : bool :=
  match node_at p f with Some Dir => true | _ => false end.

(** What stops the resolution of a path on its way down from the anchor:
    a regular file where a directory is needed ([ENOTDIR]) or an entry
    that is missing ([ENOENT]). *)
Fixpoint first_obstacle (way : list Path) (f : gmap string node) : option os_errno :=
  match way with
  | [] => None
  | q :: way' =>
      match node_at q f with
      | Some Dir => first_obstacle way' f
      | Some (File _) => Some ENOTDIR
      | None => Some ENOENT
      end
  end.

(** The error of a call whose parent directory [d] is missing: the way to
    [d] is walked from the anchor down. *)
Definition missing_parent_errno (d : Path) (f : gmap string node) : os_errno :=
  match first_obstacle (rev (lineage d)) f with
  | Some ENOTDIR => ENOTDIR
  | _ => ENOENT
  end.

(** [os.mkdir(p)] *)
Definition os_mkdir (p : Path) (f : gmap string node)
  : result unit * gmap string node :=
  match node_at (parent p) f with
  | None => (Raise (OSError (missing_parent_errno (parent p) f) (Path_str p)), f)
  | Some (File _) => (Raise (OSError ENOTDIR (Path_str p)), f)
  | Some Dir =>
      match node_at p f with
      | Some _ => (Raise (OSError EEXIST (Path_str p)), f)
      | None => (Ok tt, <[Path_str p := Dir]> f)
      end
  end.

(** [p.mkdir(exist_ok=exist_ok)], without [parents]:
    a missing parent is raised as it is; any other [OSError] is raised
    unless [exist_ok] is set and [p] is a directory. *)
Definition Path_mkdir (p : Path) (exist_ok : bool) (f : gmap string node)
  : result unit * gmap string node :=
  match os_mkdir p f with
  | (Ok tt, f') => (Ok tt, f')
  | (Raise (OSError ENOENT fn), f') => (Raise (OSError ENOENT fn), f')
  | (Raise e, f') =>
      if exist_ok && is_dir p f' then (Ok tt, f') else (Raise e, f')
  end.

(** [p.mkdir(parents=True, exist_ok=exist_ok)] for the path with anchor
    [a] and components [rev rparts]: on a missing parent, the parent is
    made first (with [parents=True, exist_ok=True]) and the call is
    repeated without [parents]. *)
Fixpoint Path_mkdir_parents_rev (a : string) (rparts : list string) (exist_ok : bool)
  (f : gmap string node) : result unit * gmap string node :=
  let p := mkPath a (rev rparts) in
  match os_mkdir p f with
  | (Ok tt, f') => (Ok tt, f')
  | (Raise (OSError ENOENT fn), f') =>
      match rparts with
      | [] => (Raise (OSError ENOENT fn), f')
      | _ :: rest =>
          match Path_mkdir_parents_rev a rest true f' with
          | (Ok tt, f'') => Path_mkdir p exist_ok f''
          | (Raise e, f'') => (Raise e, f'')
          end
      end
  | (Raise e, f') =>
      if exist_ok && is_dir p f' then (Ok tt, f') else (Raise e, f')
  end.

Definition Path_mkdir_parents (p : Path) (exist_ok : bool) (f : gmap string node)
  : result unit * gmap string node :=
  Path_mkdir_parents_rev (anchor p) (rev (parts p)) exist_ok f.

(** [with open(p, "w") as f: f.write(content)]: the file is created or
    truncated, then holds [content]. *)
Definition write_text_w (p : Path) (content : string) (f : gmap string node)
  : result unit * gmap string node :=
  match node_at (parent p) f with
  | None => (Raise (OSError (missing_parent_errno (parent p) f) (Path_str p)), f)
  | Some (File _) => (Raise (OSError ENOTDIR (Path_str p)), f)
  | Some Dir =>
      match node_at p f with
      | Some Dir => (Raise (OSError EISDIR (Path_str p)), f)
      | _ => (Ok tt, <[Path_str p := File content]> f)
      end
  end.

(** A filesystem call made by the script. *)
Definition on_fs {A} (op : gmap string node -> result A * gmap string node) : M A :=
  fun w => let '(r, f') := op (fs w) in (r, mkWorld f' (term w) (calls w)).

(** *** Child processes *)

Record CompletedProcess := mkCompleted {
  cp_args : list string;
  cp_returncode : Z;
  cp_stdout : option string;
  cp_stderr : option string
}.

(** [subprocess.run(args, capture_output=.., text=.., check=..)]:
    the child runs to its end; without [capture_output] what it writes
    goes to the terminal; with [check], a non-zero status raises
    [CalledProcessError]. *)
Definition subprocess_run (inv : invocation) : M CompletedProcess := fun w =>
  let '(o, f') := host_run h (fs w) inv in
  let calls' := (calls w ++ [(inv, o)])%list in
  match o with
  | RunRaised cls msg => (Raise (OtherException cls msg), mkWorld f' (term w) calls')
  | Exited status out err =>
      let term' := if capture_output inv then term w
                   else (term w ++ [ChildOutput out err])%list in
      let captured (s : string) := if capture_output inv then Some s else None in
      let w' := mkWorld f' term' calls' in
      if check inv && negb (status =? 0) then
        (Raise (CalledProcessError (args inv) status (captured out) (captured err)), w')
      else (Ok (mkCompleted (args inv) status (captured out) (captured err)), w')
  end.

(** *** The script *)

(** [log(msg)]: one flushed line on standard output. *)
Definition log (msg : string) : M unit := fun w =>
  (Ok tt, mkWorld (fs w) (term w ++ [Printed ("[setup] " ++ msg)])%list (calls w)).

(** [[python_exe, "-m", "venv", str(venv_dir)]] with [check=True] *)
Definition venv_cmd (venv_dir : Path) (python_exe : string) : invocation :=
  mkInv [python_exe; "-m"; "venv"; Path_str venv_dir] false false true None.

Definition create_venv (venv_dir : Path) (python_exe : string) : M unit :=
  run! log ("Creating virtual environment at " ++ Path_str venv_dir) in
  let! _ := subprocess_run (venv_cmd venv_dir python_exe) in
  ret tt.

Definition get_venv_python (venv_dir : Path) : string :=
  if String.eqb (sys_platform h) "win32" then
    Path_str (venv_dir // "Scripts" // "python.exe")
  else Path_str (venv_dir // "bin" // "python").

Definition pip_upgrade_cmd (venv_python : string) : invocation :=
  mkInv [venv_python; "-m"; "pip"; "install"; "--upgrade"; "pip"] false false true None.

(** The [cmd] list of [install_esphome], extended in offline mode. *)
Definition pip_install_args (venv_python : string) (offline : bool) : list string :=
  let cmd := [venv_python; "-m"; "pip"; "install"; "esphome"] in
  if offline then (cmd ++ ["--no-index"; "--find-links"; "wheels"])%list else cmd.

Definition pip_install_cmd (venv_python : string) (offline : bool) : invocation :=
  mkInv (pip_install_args venv_python offline) false false true None.

Definition install_esphome (venv_python : string) (offline : bool) : M unit :=
  run! log "Upgrading pip" in
  let! _ := subprocess_run (pip_upgrade_cmd venv_python) in
  run! log "Installing ESPHome" in
  let! _ := subprocess_run (pip_install_cmd venv_python offline) in
  ret tt.

Definition configure_platformio (venv_python : string) (data_dir : Path) : M unit :=
  run! log "Configuring PlatformIO" in
  let platformio_home := data_dir // "platformio" in
  run! on_fs (Path_mkdir platformio_home true) in
  let config_file := data_dir // "platformio_env.sh" in
  run! on_fs (write_text_w config_file
         ("export PLATFORMIO_CORE_DIR=" ++ Path_str platformio_home
            ++ String "010"%char EmptyString)) in
  log ("PlatformIO configured to use " ++ Path_str platformio_home).

Definition version_cmd (venv_python : string) : invocation :=
  mkInv [venv_python; "-m"; "esphome"; "version"] true true true None.

Definition verify_installation (venv_python : string) : M bool :=
  run! log "Verifying installation" in
  try_except
    (let! result := subprocess_run (version_cmd venv_python) in
     match cp_stdout result with
     | Some out =>
         let version := Py.strip out in
         run! log ("ESPHome installed: " ++ version) in
         ret true
     | None =>
         raise (OtherException "AttributeError"
                  "'NoneType' object has no attribute 'strip'")
     end)
    (fun e =>
       if is_CalledProcessError e then
         run! log ("Verification failed: " ++ exception_str e) in
         ret false
       else raise e).

(** The parsed command line ([args] in [main]). *)
Record Namespace := mkArgs {
  args_data_dir : string;
  args_offline : bool;
  args_python : string
}.

(** The body of the [try] statement of [main]. *)
Definition main_try (a : Namespace) (data_dir venv_dir : Path) : M Z :=
  run! create_venv venv_dir (args_python a) in
  let venv_python := get_venv_python venv_dir in
  run! install_esphome venv_python (args_offline a) in
  run! configure_platformio venv_python data_dir in
  let! verified := verify_installation venv_python in
  if negb verified then
    run! log "Installation verification failed!" in
    ret 1
  else
    run! log "Setup complete!" in
    ret 0.

(** [main()], after [parse_args]. *)
Definition main (a : Namespace) : M Z :=
  let data_dir := path_resolve h (args_data_dir a) in
  run! on_fs (Path_mkdir_parents data_dir true) in
  let venv_dir := data_dir // "venv" in
  try_except (main_try a data_dir venv_dir)
    (fun e =>
       if is_CalledProcessError e then
         run! log ("Setup failed: " ++ exception_str e) in
         ret 1
       else
         run! log ("Unexpected error: " ++ exception_str e) in
         ret 1).

End Script.

(** The world a run starts in: nothing printed, no child started. *)
Definition boot (f : gmap string node) : world := mkWorld f [] [].

(** ** Sample hosts *)

Module Sample.

Definition strerror (e : os_errno) : string :=
  match e with
  | EEXIST => "[Errno 17] File exists"
  | ENOENT => "[Errno 2] No such file or directory"
  | ENOTDIR => "[Errno 20] Not a directory"
  | EISDIR => "[Errno 21] Is a directory"
  end.

(** Command-line paths that are absolute already: ["/"] and one
    component. *)
Definition resolve (s : string) : Path :=
  match s with
  | String "/" rest => mkPath "/" [rest]
  | _ => mkPath "/" [s]
  end.

Definition no_signal (n : Z) : option string := None.

(** A child process that leaves the filesystem alone. *)
Definition quiet (answer : invocation -> outcome)
  : gmap string node -> invocation -> outcome * gmap string node :=
  fun f inv => (answer inv, f).

Definition linux (answer : invocation -> outcome) : host :=
  mkHost "linux" resolve (quiet answer) no_signal strerror.

(** The same on drive [C:]. *)
Definition resolve_win (s : string) : Path :=
  mkPath ("C:" ++ String Py.backslash EmptyString) [s].

Definition windows (answer : invocation -> outcome) : host :=
  mkHost "win32" resolve_win (quiet answer) no_signal strerror.

(** Every child succeeds; the version command prints a version. *)
Definition all_fine (inv : invocation) : outcome :=
  if capture_output inv then Exited 0 ("Version: 2024.6.0" ++ String "010"%char EmptyString) EmptyString
  else Exited 0 EmptyString EmptyString.

(** Every child succeeds but the version command, which exits with 1. *)
Definition version_fails (inv : invocation) : outcome :=
  if capture_output inv then Exited 1 EmptyString "No module named esphome"
  else Exited 0 EmptyString EmptyString.

(** The installation from the package index succeeds, the one from the
    local archive directory does not. *)
Definition no_wheels (inv : invocation) : outcome :=
  if capture_output inv then Exited 0 "Version: 2024.6.0" EmptyString
  else if bool_decide ("--no-index" ∈ args inv) then Exited 1 EmptyString EmptyString else Exited 0 EmptyString EmptyString.

Definition cmdline : Namespace := mkArgs "/d" false "python3".
Definition cmdline_offline : Namespace := mkArgs "/d" true "python3".
Definition cmdline_win_offline : Namespace := mkArgs "d" true "python.exe".

End Sample.

(** ** Observations on a run *)

(** The lines only the verification step prints. *)
Definition is_verification_line (l : string) : bool :=
  String.eqb l "[setup] Verifying installation"
  || String.prefix "[setup] ESPHome installed: " l
  || String.prefix "[setup] Verification failed: " l
  || String.eqb l "[setup] Installation verification failed!".

(** The filesystem lets [configure_platformio] through: [data_dir] is a
    directory, [platformio] is missing or a directory, and
    [platformio_env.sh] is not a directory. *)
Definition can_configure (h : host) (data_dir : Path) (f : gmap string node) : bool :=
  is_dir h data_dir f
  && match f !! Path_str h (data_dir // "platformio") with
     | Some (File _) => false
     | _ => true
     end
  && match f !! Path_str h (data_dir // "platformio_env.sh") with
     | Some Dir => false
     | _ => true
     end.



(** The children a complete run starts, in order. *)
Definition pipeline (h : host) (a : Namespace) : list invocation :=
  let venv_dir := path_resolve h (args_data_dir a) // "venv" in
  let venv_python := get_venv_python h venv_dir in
  [venv_cmd h venv_dir (args_python a);
   pip_upgrade_cmd venv_python;
   pip_install_cmd venv_python (args_offline a);
   version_cmd venv_python].

(** The child exited with status 0. *)
Definition exited_ok (o : outcome) : bool :=
  match o with
  | Exited st _ _ => st =? 0
  | RunRaised _ _ => false
  end.

(** The children of the host leave the filesystem alone. *)
Definition quiet_host (h : host) : Prop :=
  forall f inv, snd (host_run h f inv) = f.

Definition starts_with_space (s : string) : bool :=
  match s with
  | String c _ => Py.is_space c
  | EmptyString => false
  end.

Fixpoint all_space (s : string) : bool :=
  match s with
  | EmptyString => true
  | String c s' => Py.is_space c && all_space s'
  end.

Fixpoint ends_with_space (s : string) : bool :=
  match s with
  | EmptyString => false
  | String c EmptyString => Py.is_space c
  | String _ s' => ends_with_space s'
  end.

(** [f'] is [f] with some missing entries filled by directories. *)
Definition grows_by_dirs (f f' : gmap string node) : Prop :=
  forall k, f' !! k = f !! k \/ (f !! k = None /\ f' !! k = Some Dir).

(** No regular file stands at [p]. *)
Definition not_a_file (h : host) (f : gmap string node) (p : Path) : bool :=
  match node_at h p f with
  | Some (File _) => false
  | _ => true
  end.

(** ** Examples *)

Example strip_version : Py.strip (" Version: 2024.6.0" ++ String "010"%char EmptyString) = "Version: 2024.6.0".
Proof. reflexivity. Qed.

Example repr_cmd :
  Py.repr_list ["/d/venv/bin/python"; "-m"; "esphome"; "version"]
  = "['/d/venv/bin/python', '-m', 'esphome', 'version']".
Proof. reflexivity. Qed.

Example repr_windows : Py.repr "C:\d" = "'C:\\d'".
Proof. reflexivity. Qed.

Example dec_neg : Py.dec (-9) = "-9" /\ Py.dec 127 = "127".
Proof. split; reflexivity. Qed.

Example mkdir_below_a_file :
  fst (Path_mkdir_parents (Sample.linux Sample.all_fine) (mkPath "/" ["d"; "a"; "b"]) true
         {[ "/d" := File "x" ]})
  = Raise (OSError ENOTDIR "/d/a/b").
Proof. vm_compute. reflexivity. Qed.

Example run_fine :
  let '(r, w) := main (Sample.linux Sample.all_fine) Sample.cmdline (boot ∅) in
  r = Ok 0
  /\ term w = [Printed "[setup] Creating virtual environment at /d/venv";
               ChildOutput EmptyString EmptyString;
               Printed "[setup] Upgrading pip";
               ChildOutput EmptyString EmptyString;
               Printed "[setup] Installing ESPHome";
               ChildOutput EmptyString EmptyString;
               Printed "[setup] Configuring PlatformIO";
               Printed "[setup] PlatformIO configured to use /d/platformio";
               Printed "[setup] Verifying installation";
               Printed "[setup] ESPHome installed: Version: 2024.6.0";
               Printed "[setup] Setup complete!"]
  /\ fs w !! "/d/platformio_env.sh"
     = Some (File ("export PLATFORMIO_CORE_DIR=/d/platformio" ++ String "010"%char EmptyString)).
Proof. vm_compute. repeat split. Qed.

Example run_offline_windows :
  let '(r, w) := main (Sample.windows Sample.no_wheels) Sample.cmdline_win_offline (boot ∅) in
  r = Ok 1
  /\ last (term w)
     = Some (Printed "[setup] Setup failed: Command '['C:\\d\\venv\\Scripts\\python.exe', '-m', 'pip', 'install', 'esphome', '--no-index', '--find-links', 'wheels']' returned non-zero exit status 1.").
Proof. vm_compute. repeat split. Qed.

(** ** Paths *)

Lemma parent_joinpath (p : Path) (x : string) : parent (p // x) = p.
Proof.
  destruct p as [a l]. unfold parent, joinpath. simpl.
  now rewrite removelast_last.
Qed.

Lemma node_at_joinpath (h : host) (p : Path) (x : string) (f : gmap string node) :
  node_at h (p // x) f = f !! Path_str h (p // x).
Proof.
  unfold node_at. destruct p as [a l]. simpl.
  now destruct l.
Qed.

Lemma append_assoc (a b c : string) : (a ++ b) ++ c = a ++ (b ++ c).
Proof.
  induction a as [|ch a IH]; [reflexivity|].
  change (String ch ((a ++ b) ++ c) = String ch (a ++ (b ++ c))).
  now rewrite IH.
Qed.

Lemma join_snoc (s : string) (l : list string) (x : string) :
  Py.join s (l ++ [x])
  = match l with [] => x | _ => Py.join s l ++ s ++ x end.
Proof.
  induction l as [|y l IH]; [reflexivity|].
  destruct l as [|z l]; [reflexivity|].
  change (Py.join s ((y :: z :: l) ++ [x]))
    with (y ++ s ++ Py.join s ((z :: l) ++ [x])).
  rewrite IH.
  change (Py.join s (y :: z :: l)) with (y ++ s ++ Py.join s (z :: l)).
  now rewrite !append_assoc.
Qed.

Lemma Path_str_joinpath_inj (h : host) (p : Path) (x y : string) :
  Path_str h (p // x) = Path_str h (p // y) -> x = y.
Proof.
  unfold Path_str, joinpath. simpl. intros H.
  apply (inj (String.app _)) in H. rewrite !join_snoc in H.
  destruct (parts p); [assumption|].
  now apply (inj (String.app _)), (inj (String.app _)) in H.
Qed.

(** ** The interpreter path *)

(** C7. The interpreter path is a function of the environment path and
    the platform alone: it is a plain text value (no effect on the world,
    no exception); when [sys.platform] is win32 it is the rendering of
    [venv_dir / "Scripts" / "python.exe"], on every other platform the
    rendering of [venv_dir / "bin" / "python"]. *)
Theorem get_venv_python_layout (h : host) (venv_dir : Path) :
  (sys_platform h = "win32" ->
     get_venv_python h venv_dir
     = Path_str h (mkPath (anchor venv_dir) (parts venv_dir ++ ["Scripts"; "python.exe"])))
  /\ (sys_platform h <> "win32" ->
     get_venv_python h venv_dir
     = Path_str h (mkPath (anchor venv_dir) (parts venv_dir ++ ["bin"; "python"]))).
Proof.
  unfold get_venv_python, joinpath. simpl. rewrite <- !app_assoc. simpl.
  split; intros H.
  - rewrite H. reflexivity.
  - apply String.eqb_neq in H. rewrite H. reflexivity.
Qed.

Lemma get_venv_python_layout_witness :
  get_venv_python (Sample.windows Sample.all_fine) (mkPath "C:\" ["d"; "venv"])
  = "C:\d\venv\Scripts\python.exe"
  /\ get_venv_python (Sample.linux Sample.all_fine) (mkPath "/" ["d"; "venv"])
     = "/d/venv/bin/python".
Proof.
  split.
  - rewrite (proj1 (get_venv_python_layout (Sample.windows Sample.all_fine)
                      (mkPath "C:\" ["d"; "venv"]))); reflexivity.
  - rewrite (proj2 (get_venv_python_layout (Sample.linux Sample.all_fine)
                      (mkPath "/" ["d"; "venv"]))); [reflexivity|discriminate].
Defined.

(** ** The PlatformIO configuration step *)

Lemma node_at_insert_dir (h : host) (p : Path) (k : string) (f : gmap string node) :
  node_at h p f = Some Dir -> node_at h p (<[k:=Dir]> f) = Some Dir.
Proof.
  unfold node_at. destruct (parts p); [reflexivity|]. intros Hp.
  destruct (decide (k = Path_str h p)) as [->|N].
  - apply lookup_insert_eq.
  - now rewrite lookup_insert_ne.
Qed.

Lemma platformio_paths_differ (h : host) (data_dir : Path) :
  Path_str h (data_dir // "platformio") <> Path_str h (data_dir // "platformio_env.sh").
Proof. intros E. apply Path_str_joinpath_inj in E. discriminate. Qed.

(** What the step does on a filesystem that lets it through. *)
Lemma configure_platformio_run
  (h : host) (venv_python : string) (data_dir : Path) (w : world) :
  can_configure h data_dir (fs w) = true ->
  configure_platformio h venv_python data_dir w
  = (Ok tt,
     mkWorld
       (<[Path_str h (data_dir // "platformio_env.sh")
          := File ("export PLATFORMIO_CORE_DIR=" ++ Path_str h (data_dir // "platformio")
                     ++ String "010"%char EmptyString)]>
          (<[Path_str h (data_dir // "platformio") := Dir]> (fs w)))
       (term w ++ [Printed ("[setup] " ++ "Configuring PlatformIO");
                   Printed ("[setup] " ++ "PlatformIO configured to use "
                              ++ Path_str h (data_dir // "platformio"))])
       (calls w)).
Proof.
  unfold can_configure. intros Hc.
  apply andb_prop in Hc as [Hc Hcfg]. apply andb_prop in Hc as [Hd Hpio].
  pose proof (platformio_paths_differ h data_dir) as Hne.
  set (pio := Path_str h (data_dir // "platformio")) in *.
  set (cfg := Path_str h (data_dir // "platformio_env.sh")) in *.
  assert (Hd0 : node_at h data_dir (fs w) = Some Dir).
  { unfold is_dir in Hd. destruct (node_at h data_dir (fs w)) as [[|?]|]; congruence. }
  unfold configure_platformio, bind, log, on_fs, Path_mkdir, os_mkdir, write_text_w.
  cbn [fs term calls].
  rewrite !parent_joinpath, !node_at_joinpath. fold pio cfg.
  rewrite Hd0.
  destruct (fs w !! pio) as [[|c]|] eqn:Ep; [| discriminate |].
  - (* the directory is there already *)
    unfold is_dir. rewrite node_at_joinpath. fold pio. rewrite Ep. cbn [andb fs].
    rewrite Hd0, node_at_joinpath. fold cfg.
    rewrite (insert_id (fs w) pio Dir Ep).
    destruct (fs w !! cfg) as [[|c]|] eqn:Ec; [discriminate | |];
      cbn [fs term calls]; rewrite <- app_assoc; reflexivity.
  - (* the directory is made *)
    cbn [fs]. rewrite (node_at_insert_dir h data_dir pio _ Hd0).
    rewrite node_at_joinpath. fold cfg.
    rewrite lookup_insert_ne by assumption.
    destruct (fs w !! cfg) as [[|c]|] eqn:Ec; [discriminate | |];
      cbn [fs term calls]; rewrite <- app_assoc; reflexivity.
Qed.

(** The step completes on such filesystems only. *)
Lemma configure_platformio_completes
  (h : host) (venv_python : string) (data_dir : Path) (w w' : world) :
  configure_platformio h venv_python data_dir w = (Ok tt, w') ->
  can_configure h data_dir (fs w) = true.
Proof.
  pose proof (platformio_paths_differ h data_dir) as Hne.
  unfold can_configure, configure_platformio, bind, log, on_fs, Path_mkdir, os_mkdir,
    write_text_w, is_dir.
  cbn [fs term calls].
  rewrite !parent_joinpath, !node_at_joinpath.
  set (pio := Path_str h (data_dir // "platformio")) in *.
  set (cfg := Path_str h (data_dir // "platformio_env.sh")) in *.
  destruct (node_at h data_dir (fs w)) as [[|c0]|] eqn:Ed;
    destruct (fs w !! pio) as [[|c1]|] eqn:Ep;
    cbn [andb fs]; rewrite ?node_at_joinpath; fold pio cfg; rewrite ?Ep; cbn [andb fs];
    try discriminate.
  - rewrite Ed, node_at_joinpath. fold cfg.
    destruct (fs w !! cfg) as [[|c]|]; [discriminate| |]; reflexivity.
  - rewrite (node_at_insert_dir h data_dir pio _ Ed).
    rewrite lookup_insert_ne by assumption.
    destruct (fs w !! cfg) as [[|c]|]; [discriminate| |]; reflexivity.
  - rewrite Ed. discriminate.
  - destruct (missing_parent_errno h data_dir (fs w));
      cbn [fs term calls]; rewrite ?Ed; discriminate.
  - destruct (missing_parent_errno h data_dir (fs w));
      cbn [fs term calls]; rewrite ?Ed; discriminate.
  - destruct (missing_parent_errno h data_dir (fs w));
      cbn [fs term calls]; rewrite ?Ed; discriminate.
Qed.

(** C10. The interpreter path given to [configure_platformio] is never
    used. With the same [data_dir], two calls with different interpreter
    paths are the same computation; and whatever the worlds they start
    in, when both complete they leave the same cache directory and the
    same content in the configuration file, the one line made from
    [data_dir]. *)
Theorem configure_platformio_ignores_python
  (h : host) (venv_python1 venv_python2 : string) (data_dir : Path) :
  (forall w,
     configure_platformio h venv_python1 data_dir w
     = configure_platformio h venv_python2 data_dir w)
  /\ (forall w1 w2 w1' w2',
        configure_platformio h venv_python1 data_dir w1 = (Ok tt, w1') ->
        configure_platformio h venv_python2 data_dir w2 = (Ok tt, w2') ->
        fs w1' !! Path_str h (data_dir // "platformio_env.sh")
        = fs w2' !! Path_str h (data_dir // "platformio_env.sh")
        /\ fs w1' !! Path_str h (data_dir // "platformio_env.sh")
           = Some (File ("export PLATFORMIO_CORE_DIR="
                           ++ Path_str h (data_dir // "platformio")
                           ++ String "010"%char EmptyString))
        /\ fs w1' !! Path_str h (data_dir // "platformio") = Some Dir
        /\ fs w2' !! Path_str h (data_dir // "platformio") = Some Dir).
Proof.
  split; [reflexivity|].
  intros w1 w2 w1' w2' H1 H2.
  pose proof (platformio_paths_differ h data_dir) as Hne.
  pose proof (configure_platformio_completes _ _ _ _ _ H1) as C1.
  pose proof (configure_platformio_completes _ _ _ _ _ H2) as C2.
  rewrite (configure_platformio_run _ _ _ _ C1) in H1.
  rewrite (configure_platformio_run _ _ _ _ C2) in H2.
  injection H1 as <-. injection H2 as <-. cbn [fs].
  repeat split;
    rewrite ?lookup_insert_eq, ?lookup_insert_ne, ?lookup_insert_eq by congruence;
    reflexivity.
Qed.

Lemma configure_platformio_ignores_python_witness :
  let h := Sample.linux Sample.all_fine in
  let d := mkPath "/" ["d"] in
  fs (snd (configure_platformio h "/d/venv/bin/python" d (boot {[ "/d" := Dir ]})))
    !! "/d/platformio_env.sh"
  = fs (snd (configure_platformio h "/usr/bin/python3" d
               (boot {[ "/d" := Dir; "/d/platformio" := Dir ]})))
      !! "/d/platformio_env.sh".
Proof.
  pose (h := Sample.linux Sample.all_fine).
  pose (d := mkPath "/" ["d"]).
  refine (proj1 (proj2 (configure_platformio_ignores_python h
                          "/d/venv/bin/python" "/usr/bin/python3" d)
                   (boot {[ "/d" := Dir ]})
                   (boot {[ "/d" := Dir; "/d/platformio" := Dir ]})
                   (snd (configure_platformio h "/d/venv/bin/python" d (boot {[ "/d" := Dir ]})))
                   (snd (configure_platformio h "/usr/bin/python3" d
                           (boot {[ "/d" := Dir; "/d/platformio" := Dir ]})))
                   _ _));
    vm_compute; reflexivity.
Defined.

(** C8. Every time the step completes, [platformio] is a directory and
    [platformio_env.sh] holds exactly the line
    [export PLATFORMIO_CORE_DIR=<data_dir/platformio>] and a newline,
    whatever it held before, and nothing else in the filesystem has
    changed. And the step completes on every filesystem in which
    [data_dir] is a directory and the configuration file can be opened
    for writing, whether [platformio] is missing or exists already. *)
Theorem configure_platformio_writes
  (h : host) (venv_python : string) (data_dir : Path) (w : world) :
  let platformio_home := Path_str h (data_dir // "platformio") in
  let config_file := Path_str h (data_dir // "platformio_env.sh") in
  (forall w',
     configure_platformio h venv_python data_dir w = (Ok tt, w') ->
     fs w' !! platformio_home = Some Dir
     /\ fs w' !! config_file
        = Some (File ("export PLATFORMIO_CORE_DIR=" ++ platformio_home
                        ++ String "010"%char EmptyString))
     /\ (forall k, k <> platformio_home -> k <> config_file -> fs w' !! k = fs w !! k))
  /\ (is_dir h data_dir (fs w) = true ->
      fs w !! platformio_home = None \/ fs w !! platformio_home = Some Dir ->
      fs w !! config_file <> Some Dir ->
      exists w', configure_platformio h venv_python data_dir w = (Ok tt, w')).
Proof.
  cbn zeta. pose proof (platformio_paths_differ h data_dir) as Hne. split.
  - intros w' Hrun.
    pose proof (configure_platformio_completes _ _ _ _ _ Hrun) as Hc.
    rewrite (configure_platformio_run _ _ _ _ Hc) in Hrun.
    injection Hrun as <-. cbn [fs]. repeat split.
    + rewrite lookup_insert_ne by congruence. apply lookup_insert_eq.
    + apply lookup_insert_eq.
    + intros k Hk1 Hk2. now rewrite !lookup_insert_ne by congruence.
  - intros Hd Hpio Hcfg. eexists. apply configure_platformio_run.
    unfold can_configure. rewrite Hd. cbn [andb].
    destruct Hpio as [-> | ->]; cbn [andb];
      destruct (fs w !! Path_str h (data_dir // "platformio_env.sh")) as [[|c]|];
      congruence.
Qed.

Lemma configure_platformio_writes_witness :
  exists w',
    configure_platformio (Sample.linux Sample.all_fine) "/d/venv/bin/python"
      (mkPath "/" ["d"])
      (boot {[ "/d" := Dir; "/d/platformio" := Dir;
               "/d/platformio_env.sh" := File "export PLATFORMIO_CORE_DIR=/old" ]})
    = (Ok tt, w')
    /\ fs w' !! "/d/platformio_env.sh"
       = Some (File ("export PLATFORMIO_CORE_DIR=/d/platformio"
                       ++ String "010"%char EmptyString)).
Proof.
  destruct (configure_platformio_writes (Sample.linux Sample.all_fine)
              "/d/venv/bin/python" (mkPath "/" ["d"])
              (boot {[ "/d" := Dir; "/d/platformio" := Dir;
                       "/d/platformio_env.sh" := File "export PLATFORMIO_CORE_DIR=/old" ]}))
    as (Hpost & Hruns).
  destruct Hruns as (w' & Hrun).
  - vm_compute. reflexivity.
  - right. vm_compute. reflexivity.
  - vm_compute. discriminate.
  - exists w'. split; [exact Hrun|]. apply (Hpost w' Hrun).
Defined.

(** ** Child processes *)

Ltac script_unfold :=
  unfold create_venv, install_esphome, verify_installation,
    try_except, bind, ret, raise, log, on_fs, subprocess_run;
  cbn [fs term calls check capture_output args cp_stdout
         venv_cmd pip_upgrade_cmd pip_install_cmd version_cmd
         andb negb is_CalledProcessError].

(** ** The verification step *)

(** C3, the claim as stated fails: the version command exits with 1 and
    writes ["No module named esphome"] on its standard error;
    [verify_installation] returns [False], and neither of the two lines it
    prints holds the captured error text. *)
Lemma verify_installation_drops_stderr :
  let h := Sample.linux Sample.version_fails in
  let '(r, w) := verify_installation h "/d/venv/bin/python" (boot ∅) in
  host_run h ∅ (version_cmd "/d/venv/bin/python")
  = (Exited 1 EmptyString "No module named esphome", ∅)
  /\ r = Ok false
  /\ term w
     = [Printed "[setup] Verifying installation";
        Printed "[setup] Verification failed: Command '['/d/venv/bin/python', '-m', 'esphome', 'version']' returned non-zero exit status 1."]
  /\ Py.occurs "No module named esphome" "[setup] Verifying installation" = false
  /\ Py.occurs "No module named esphome"
       "[setup] Verification failed: Command '['/d/venv/bin/python', '-m', 'esphome', 'version']' returned non-zero exit status 1."
     = false.
Proof. vm_compute. repeat split. Qed.

(** C3, amended. The version command runs with [capture_output] and
    [text]: nothing it writes reaches the terminal. On exit status 0 the
    step prints the captured standard output, stripped, and returns
    [True]. On a non-zero status it prints the message of the
    [CalledProcessError], which is made of the command and the status and
    not of the captured text, and returns [False]. *)
Theorem verify_installation_outcomes (h : host) (venv_python : string) (w : world) :
  let inv := version_cmd venv_python in
  capture_output inv = true /\ text inv = true
  /\ (forall out err f',
        host_run h (fs w) inv = (Exited 0 out err, f') ->
        verify_installation h venv_python w
        = (Ok true,
           mkWorld f'
             (term w ++ [Printed "[setup] Verifying installation";
                         Printed ("[setup] ESPHome installed: " ++ Py.strip out)])
             (calls w ++ [(inv, Exited 0 out err)])))
  /\ (forall st out err f',
        st <> 0 ->
        host_run h (fs w) inv = (Exited st out err, f') ->
        verify_installation h venv_python w
        = (Ok false,
           mkWorld f'
             (term w ++ [Printed "[setup] Verifying installation";
                         Printed ("[setup] Verification failed: "
                                    ++ exception_str h (CalledProcessError (args inv) st None None))])
             (calls w ++ [(inv, Exited st out err)]))).
Proof.
  cbn zeta. repeat split.
  - intros out err f' Hrun. script_unfold. rewrite Hrun.
    cbn [Z.eqb andb negb cp_stdout fs term calls]. rewrite <- !app_assoc. reflexivity.
  - intros st out err f' Hst Hrun. script_unfold. rewrite Hrun.
    apply Z.eqb_neq in Hst. rewrite Hst.
    cbn [andb negb is_CalledProcessError fs term calls]. rewrite <- !app_assoc. reflexivity.
Qed.

Lemma verify_installation_outcomes_witness :
  verify_installation (Sample.linux Sample.version_fails) "/d/venv/bin/python" (boot ∅)
  = (Ok false,
     mkWorld ∅
       [Printed "[setup] Verifying installation";
        Printed "[setup] Verification failed: Command '['/d/venv/bin/python', '-m', 'esphome', 'version']' returned non-zero exit status 1."]
       [(version_cmd "/d/venv/bin/python", Exited 1 EmptyString "No module named esphome")]).
Proof.
  destruct (verify_installation_outcomes (Sample.linux Sample.version_fails)
              "/d/venv/bin/python" (boot ∅)) as (_ & _ & _ & Hfail).
  rewrite (Hfail 1 EmptyString "No module named esphome" ∅); [reflexivity | lia | reflexivity].
Defined.

(** C2. When the version command exits with a non-zero status,
    [verify_installation] returns [False] and does not raise; [main],
    having come that far, then prints its own line, ["Installation
    verification failed!"], and returns 1. In no other step does a failed
    child become a returned value: [create_venv] and [install_esphome]
    raise [CalledProcessError], and [configure_platformio] starts no
    child. *)
Theorem verification_failure_is_a_value (h : host) (a : Namespace) (w : world) :
  let data_dir := path_resolve h (args_data_dir a) in
  let venv_dir := data_dir // "venv" in
  let venv_python := get_venv_python h venv_dir in
  (* the verification step *)
  (forall w3 st out err f',
     st <> 0 ->
     host_run h (fs w3) (version_cmd venv_python) = (Exited st out err, f') ->
     exists w4, verify_installation h venv_python w3 = (Ok false, w4))
  (* the orchestration *)
  /\ (forall f0 w1 w2 w3 st out err f',
        Path_mkdir_parents h data_dir true (fs w) = (Ok tt, f0) ->
        create_venv h venv_dir (args_python a) (mkWorld f0 (term w) (calls w)) = (Ok tt, w1) ->
        install_esphome h venv_python (args_offline a) w1 = (Ok tt, w2) ->
        configure_platformio h venv_python data_dir w2 = (Ok tt, w3) ->
        st <> 0 ->
        host_run h (fs w3) (version_cmd venv_python) = (Exited st out err, f') ->
        exists w5,
          main h a w = (Ok 1, w5)
          /\ term w5
             = (term w3
                  ++ [Printed "[setup] Verifying installation";
                      Printed ("[setup] Verification failed: "
                                 ++ exception_str h
                                      (CalledProcessError (args (version_cmd venv_python))
                                         st None None));
                      Printed "[setup] Installation verification failed!"])%list)
  (* the other steps *)
  /\ (forall w0 st out err f',
        st <> 0 ->
        host_run h (fs w0) (venv_cmd h venv_dir (args_python a)) = (Exited st out err, f') ->
        exists cmd w1,
          create_venv h venv_dir (args_python a) w0
          = (Raise (CalledProcessError cmd st None None), w1))
  /\ (forall w1 st out err f',
        st <> 0 ->
        host_run h (fs w1) (pip_upgrade_cmd venv_python) = (Exited st out err, f') ->
        exists cmd w2,
          install_esphome h venv_python (args_offline a) w1
          = (Raise (CalledProcessError cmd st None None), w2))
  /\ (forall w1 out0 err0 f1 st out err f',
        host_run h (fs w1) (pip_upgrade_cmd venv_python) = (Exited 0 out0 err0, f1) ->
        st <> 0 ->
        host_run h f1 (pip_install_cmd venv_python (args_offline a)) = (Exited st out err, f') ->
        exists cmd w2,
          install_esphome h venv_python (args_offline a) w1
          = (Raise (CalledProcessError cmd st None None), w2))
  /\ (forall w2, calls (snd (configure_platformio h venv_python data_dir w2)) = calls w2).
Proof.
  cbn zeta. repeat split.
  - intros w3 st out err f' Hst Hrun.
    destruct (verify_installation_outcomes h
                (get_venv_python h (path_resolve h (args_data_dir a) // "venv")) w3)
      as (_ & _ & _ & Hfail).
    eexists. apply (Hfail st out err f' Hst Hrun).
  - intros f0 w1 w2 w3 st out err f' Hmk Hvenv Hinst Hconf Hst Hrun.
    destruct (verify_installation_outcomes h
                (get_venv_python h (path_resolve h (args_data_dir a) // "venv")) w3)
      as (_ & _ & _ & Hfail).
    specialize (Hfail st out err f' Hst Hrun).
    unfold main, main_try, try_except, bind, on_fs.
    rewrite Hmk, Hvenv, Hinst, Hconf, Hfail.
    unfold log, ret. cbn [negb fs term calls].
    eexists. split; [reflexivity|]. cbn [term]. rewrite <- !app_assoc. reflexivity.
  - intros w0 st out err f' Hst Hrun. script_unfold. rewrite Hrun.
    apply Z.eqb_neq in Hst. rewrite Hst. cbn [negb]. eauto.
  - intros w1 st out err f' Hst Hrun. script_unfold. rewrite Hrun.
    apply Z.eqb_neq in Hst. rewrite Hst. cbn [negb]. eauto.
  - intros w1 out0 err0 f1 st out err f' Hup Hst Hrun. script_unfold. rewrite Hup.
    cbn [Z.eqb negb fs term calls]. rewrite Hrun.
    apply Z.eqb_neq in Hst. rewrite Hst. cbn [negb]. eauto.
  - intros w2. unfold configure_platformio, bind, on_fs, log. cbn [fs term calls].
    destruct (Path_mkdir h _ true (fs w2)) as [[[]|e] f1]; [|reflexivity].
    cbn [fs term calls].
    destruct (write_text_w h _ _ f1) as [[[]|e] f2]; reflexivity.
Qed.

Lemma verification_failure_is_a_value_witness :
  exists w5,
    main (Sample.linux Sample.version_fails) Sample.cmdline (boot ∅) = (Ok 1, w5)
    /\ last (term w5) = Some (Printed "[setup] Installation verification failed!").
Proof.
  pose (h := Sample.linux Sample.version_fails).
  pose (d := mkPath "/" ["d"]).
  pose (vp := "/d/venv/bin/python").
  destruct (verification_failure_is_a_value h Sample.cmdline (boot ∅))
    as (_ & Hmain & _).
  let f0 := eval vm_compute in (snd (Path_mkdir_parents h d true ∅)) in
  let w1 := eval vm_compute in (snd (create_venv h (d // "venv") "python3" (mkWorld f0 [] []))) in
  let w2 := eval vm_compute in (snd (install_esphome h vp false w1)) in
  let w3 := eval vm_compute in (snd (configure_platformio h vp d w2)) in
  destruct (Hmain f0 w1 w2 w3 1 EmptyString "No module named esphome" (fs w3))
    as (w5 & Hrun & Hterm);
    [vm_compute; reflexivity | vm_compute; reflexivity | vm_compute; reflexivity
    | vm_compute; reflexivity | lia | vm_compute; reflexivity | ].
  exists w5. split; [exact Hrun|]. rewrite Hterm. vm_compute. reflexivity.
Defined.

(** ** The orchestration *)

(** Case analysis on the answers of the host and of the filesystem along
    a run. *)
Ltac host_answer :=
  match goal with
  | |- context [host_run ?h ?f ?i] =>
      let st := fresh "st" in
      let E := fresh "Est" in
      destruct (host_run h f i) as [[st ? ?|? ?] ?] eqn:?;
      [destruct (st =? 0) eqn:E|]
  | |- context [Path_mkdir_parents ?h ?p ?b ?f] =>
      destruct (Path_mkdir_parents h p b f) as [[[]|?] ?] eqn:?
  | |- context [Path_mkdir ?h ?p ?b ?f] =>
      destruct (Path_mkdir h p b f) as [[[]|?] ?] eqn:?
  | |- context [write_text_w ?h ?p ?c ?f] =>
      destruct (write_text_w h p c f) as [[[]|?] ?] eqn:?
  | |- context [is_CalledProcessError ?e] =>
      destruct (is_CalledProcessError e) eqn:?
  end;
  cbn [fs term calls negb andb is_CalledProcessError cp_stdout fst snd].

Ltac run_script :=
  unfold main, main_try, configure_platformio;
  script_unfold;
  cbn [fst snd boot];
  repeat host_answer.

(** C4, the claim as stated fails: [data_dir] names a regular file, the
    call that creates it (before the [try] statement) raises
    [FileExistsError], and the exception leaves [main] with nothing
    printed. *)
Lemma main_data_dir_failure_escapes :
  let '(r, w) := main (Sample.linux Sample.all_fine) Sample.cmdline
                   (boot {[ "/d" := File "x" ]}) in
  r = Raise (OSError EEXIST "/d") /\ term w = [].
Proof. vm_compute. split; reflexivity. Qed.

(** C4, amended. Once [data_dir] has been created, every failure of a
    later step is caught and logged with a prefix that tells its kind,
    and [main] returns 1; no exception leaves [main]. An exception that
    leaves a step is caught at the top level and printed last, after
    ["Setup failed: "] when it is the [CalledProcessError] of the
    environment creation or of an installer child that exited with a
    non-zero status, after ["Unexpected error: "] otherwise (a child that
    could not be run among them). A version command that exited with a
    non-zero status is caught inside [verify_installation] and printed
    after ["Verification failed: "], before the last line. *)
Theorem main_catches_guarded_failures
  (h : host) (a : Namespace) (f f0 : gmap string node) :
  let data_dir := path_resolve h (args_data_dir a) in
  let venv_dir := data_dir // "venv" in
  let venv_python := get_venv_python h venv_dir in
  let run := main h a (boot f) in
  Path_mkdir_parents h data_dir true f = (Ok tt, f0) ->
  (exists code, fst run = Ok code /\ (code = 0 \/ code = 1))
  /\ (forall e w1,
        main_try h a data_dir venv_dir (boot f0) = (Raise e, w1) ->
        run
        = (Ok 1,
           mkWorld (fs w1)
             (term w1
                ++ [Printed ("[setup] "
                               ++ (if is_CalledProcessError e
                                   then "Setup failed: " ++ exception_str h e
                                   else "Unexpected error: " ++ exception_str h e))])
             (calls w1)))
  /\ (forall inv st out err,
        In (inv, Exited st out err) (calls (snd run)) ->
        st <> 0 ->
        fst run = Ok 1
        /\ (capture_output inv = false ->
            last (term (snd run))
            = Some (Printed ("[setup] " ++ "Setup failed: "
                               ++ exception_str h
                                    (CalledProcessError (args inv) st None None))))
        /\ (inv = version_cmd venv_python ->
            In (Printed ("[setup] " ++ "Verification failed: "
                           ++ exception_str h
                                (CalledProcessError (args inv) st None None)))
              (term (snd run))
            /\ last (term (snd run))
               = Some (Printed "[setup] Installation verification failed!")))
  /\ (forall inv cls msg,
        In (inv, RunRaised cls msg) (calls (snd run)) ->
        fst run = Ok 1
        /\ last (term (snd run))
           = Some (Printed ("[setup] " ++ "Unexpected error: " ++ msg))).
Proof.
  cbn zeta. intros Hmk. split; [|split; [|split]].
  - unfold main, try_except, bind, on_fs, boot. cbn [fs term calls]. rewrite Hmk.
    destruct (main_try h a _ _ _) as [[code|e] w1] eqn:Htry.
    + exists code. split; [reflexivity|].
      revert Htry. run_script; intros [= <- _]; auto.
    + unfold log, ret. destruct (is_CalledProcessError e); eauto.
  - intros e w1 Htry. unfold main, try_except, bind, on_fs, boot in *.
    cbn [fs term calls]. rewrite Hmk, Htry.
    unfold log, ret. destruct (is_CalledProcessError e); reflexivity.
  - clear Hmk.
    run_script; cbn [app boot term calls last In]; intros inv st' out' err' Hin Hst';
      repeat match goal with
             | H : _ \/ _ |- _ => destruct H
             | H : False |- _ => destruct H
             | H : (_ =? 0) = true |- _ => apply Z.eqb_eq in H; subst
             | H : (_, _) = (_, Exited _ _ _) |- _ => injection H; clear H; intros; subst
             end;
      try discriminate; try congruence.
    all: split; [reflexivity|split].
    all: try (intros Hcap; first [reflexivity | discriminate Hcap]).
    all: intros Hinv;
      try (exfalso; unfold version_cmd, venv_cmd, pip_upgrade_cmd, pip_install_cmd in Hinv;
           discriminate Hinv).
    all: split; [cbn [In]; auto 12|reflexivity].
  - clear Hmk.
    run_script; cbn [app boot term calls last In]; intros inv cls' msg' Hin;
      repeat match goal with
             | H : _ \/ _ |- _ => destruct H
             | H : False |- _ => destruct H
             | H : (_, _) = (_, RunRaised _ _) |- _ => injection H; clear H; intros; subst
             end;
      try discriminate; split; reflexivity.
Qed.

Lemma main_catches_guarded_failures_witness :
  let run := main (Sample.linux Sample.no_wheels) Sample.cmdline_offline (boot ∅) in
  fst run = Ok 1
  /\ last (term (snd run))
     = Some (Printed "[setup] Setup failed: Command '['/d/venv/bin/python', '-m', 'pip', 'install', 'esphome', '--no-index', '--find-links', 'wheels']' returned non-zero exit status 1.").
Proof.
  pose (h := Sample.linux Sample.no_wheels).
  pose (d := mkPath "/" ["d"]).
  let f0 := eval vm_compute in (snd (Path_mkdir_parents h d true ∅)) in
  destruct (main_catches_guarded_failures h Sample.cmdline_offline ∅ f0)
    as (_ & _ & Hchild & _); [vm_compute; reflexivity|].
  destruct (Hchild (pip_install_cmd "/d/venv/bin/python" true) 1 EmptyString EmptyString)
    as (Hcode & Hline & _).
  - vm_compute. do 2 right. left. reflexivity.
  - lia.
  - split; [exact Hcode|].
    etransitivity; [exact (Hline eq_refl)|vm_compute; reflexivity].
Defined.

(** C1. [main] returns 0 exactly when the environment is created, both
    installer invocations succeed, the configuration is written and the
    verification returns [True]. It returns 1 whenever a child it started
    exited with a non-zero status, whenever a step of the [try] statement
    raised, and whenever the verification returned [False]. *)
Theorem main_exit_code (h : host) (a : Namespace) (f : gmap string node) :
  let data_dir := path_resolve h (args_data_dir a) in
  let venv_dir := data_dir // "venv" in
  let venv_python := get_venv_python h venv_dir in
  (fst (main h a (boot f)) = Ok 0 <->
   exists f0 w1 w2 w3 w4,
     Path_mkdir_parents h data_dir true f = (Ok tt, f0)
     /\ create_venv h venv_dir (args_python a) (boot f0) = (Ok tt, w1)
     /\ install_esphome h venv_python (args_offline a) w1 = (Ok tt, w2)
     /\ configure_platformio h venv_python data_dir w2 = (Ok tt, w3)
     /\ verify_installation h venv_python w3 = (Ok true, w4))
  /\ (forall inv st out err,
        In (inv, Exited st out err) (calls (snd (main h a (boot f)))) ->
        st <> 0 ->
        fst (main h a (boot f)) = Ok 1)
  /\ (forall f0 e w1,
        Path_mkdir_parents h data_dir true f = (Ok tt, f0) ->
        main_try h a data_dir venv_dir (boot f0) = (Raise e, w1) ->
        fst (main h a (boot f)) = Ok 1)
  /\ (forall f0 w1 w2 w3 w4,
        Path_mkdir_parents h data_dir true f = (Ok tt, f0) ->
        create_venv h venv_dir (args_python a) (boot f0) = (Ok tt, w1) ->
        install_esphome h venv_python (args_offline a) w1 = (Ok tt, w2) ->
        configure_platformio h venv_python data_dir w2 = (Ok tt, w3) ->
        verify_installation h venv_python w3 = (Ok false, w4) ->
        fst (main h a (boot f)) = Ok 1).
Proof.
  cbn zeta. split; [split|split; [|split]].
  - (* 0 only if every step succeeded *)
    unfold main, main_try, try_except, bind, on_fs, boot. cbn [fs term calls].
    destruct (Path_mkdir_parents h _ true f) as [[[]|e] f0] eqn:Hmk; [|discriminate].
    destruct (create_venv h _ _ _) as [[[]|e] w1] eqn:Hvenv.
    2:{ unfold log, ret. destruct (is_CalledProcessError e); discriminate. }
    destruct (install_esphome h _ _ w1) as [[[]|e] w2] eqn:Hinst.
    2:{ unfold log, ret. destruct (is_CalledProcessError e); discriminate. }
    destruct (configure_platformio h _ _ w2) as [[[]|e] w3] eqn:Hconf.
    2:{ unfold log, ret. destruct (is_CalledProcessError e); discriminate. }
    destruct (verify_installation h _ w3) as [[[]|e] w4] eqn:Hver.
    + intros _. exists f0, w1, w2, w3, w4. auto.
    + discriminate.
    + unfold log, ret. destruct (is_CalledProcessError e); discriminate.
  - (* 0 if every step succeeded *)
    intros (f0 & w1 & w2 & w3 & w4 & Hmk & Hvenv & Hinst & Hconf & Hver).
    unfold main, main_try, try_except, bind, on_fs, boot in *. cbn [fs term calls].
    rewrite Hmk, Hvenv, Hinst, Hconf, Hver. reflexivity.
  - (* a child exited with a non-zero status *)
    run_script; intros inv st' out' err' Hin Hst'; try reflexivity;
      cbn [app In boot calls] in Hin;
      repeat match goal with
             | H : _ \/ _ |- _ => destruct H
             | H : False |- _ => destruct H
             | H : (_, Exited _ _ _) = (_, Exited _ _ _) |- _ =>
                 injection H as _ <- _ _
             | H : (_ =? 0) = true |- _ => apply Z.eqb_eq in H
             end; try congruence.
  - (* a step raised *)
    intros f0 e w1 Hmk Htry.
    unfold main, try_except, bind, on_fs, boot in *. cbn [fs term calls].
    rewrite Hmk, Htry. unfold log, ret. destruct (is_CalledProcessError e); reflexivity.
  - (* the verification returned False *)
    intros f0 w1 w2 w3 w4 Hmk Hvenv Hinst Hconf Hver.
    unfold main, main_try, try_except, bind, on_fs, boot in *. cbn [fs term calls].
    rewrite Hmk, Hvenv, Hinst, Hconf, Hver. reflexivity.
Qed.

Lemma main_exit_code_witness :
  exists f0 w1 w2 w3 w4,
    Path_mkdir_parents (Sample.linux Sample.all_fine) (mkPath "/" ["d"]) true ∅ = (Ok tt, f0)
    /\ create_venv (Sample.linux Sample.all_fine) (mkPath "/" ["d"; "venv"]) "python3" (boot f0)
       = (Ok tt, w1)
    /\ install_esphome (Sample.linux Sample.all_fine) "/d/venv/bin/python" false w1 = (Ok tt, w2)
    /\ configure_platformio (Sample.linux Sample.all_fine) "/d/venv/bin/python"
         (mkPath "/" ["d"]) w2 = (Ok tt, w3)
    /\ verify_installation (Sample.linux Sample.all_fine) "/d/venv/bin/python" w3 = (Ok true, w4).
Proof.
  apply (proj1 (proj1 (main_exit_code (Sample.linux Sample.all_fine) Sample.cmdline ∅))).
  vm_compute. reflexivity.
Defined.

(** C6. When one of the two installer children exits with a non-zero
    status, [main] returns 1, the version command is never started and
    none of the lines of the verification step is printed. *)
Theorem install_failure_skips_verification
  (h : host) (a : Namespace) (f : gmap string node)
  (inv : invocation) (st : Z) (out err : string) :
  let venv_python := get_venv_python h (path_resolve h (args_data_dir a) // "venv") in
  let run := main h a (boot f) in
  In (inv, Exited st out err) (calls (snd run)) ->
  inv = pip_upgrade_cmd venv_python \/ inv = pip_install_cmd venv_python (args_offline a) ->
  st <> 0 ->
  fst run = Ok 1
  /\ (forall o, ~ In (version_cmd venv_python, o) (calls (snd run)))
  /\ (forall l, In (Printed l) (term (snd run)) -> is_verification_line l = false).
Proof.
  cbn zeta. revert inv st out err.
  run_script; intros inv st' out' err' Hin Hinv Hst';
    cbn [app In boot calls term] in *;
    repeat match goal with
           | H : (_ =? 0) = true |- _ => apply Z.eqb_eq in H; subst
           end;
    (* the runs that reach the verification step have no failed installer *)
    try (exfalso;
         repeat match goal with
                | H : _ \/ _ |- _ => destruct H
                | H : False |- _ => destruct H
                | H : (_, Exited _ _ _) = (_, Exited _ _ _) |- _ =>
                    injection H as ? ? ? ?; subst
                end;
         try congruence;
         unfold pip_upgrade_cmd, pip_install_cmd, version_cmd in *; congruence);
    (split; [reflexivity|split; [intros o Ho | intros l Hl]]).
  all: cbn [app In] in *.
  all: repeat match goal with
              | H : _ \/ _ |- _ => destruct H
              | H : False |- _ => destruct H
              end.
  all: try discriminate.
  all: try match goal with
           | H : Printed _ = Printed _ |- _ => injection H as <-; vm_compute; reflexivity
           end.
  all: unfold version_cmd, venv_cmd, pip_upgrade_cmd, pip_install_cmd, pip_install_args in *;
    try discriminate; destruct (args_offline a); discriminate.
Qed.

Lemma install_failure_skips_verification_witness :
  let run := main (Sample.linux Sample.no_wheels) Sample.cmdline_offline (boot ∅) in
  fst run = Ok 1
  /\ (forall l, In (Printed l) (term (snd run)) -> is_verification_line l = false).
Proof.
  destruct (install_failure_skips_verification (Sample.linux Sample.no_wheels)
              Sample.cmdline_offline ∅
              (pip_install_cmd "/d/venv/bin/python" true) 1 EmptyString EmptyString)
    as (Hcode & _ & Hlines).
  - vm_compute. right; right; left; reflexivity.
  - right. reflexivity.
  - lia.
  - split; assumption.
Defined.

(** ** Offline mode *)

(** C9. In offline mode the package installation is started with the
    arguments [--no-index --find-links wheels]: the local source is the
    literal relative path ["wheels"], whatever [data_dir] is, and the
    child is given no working directory of its own ([cwd] is [None]), so
    it starts in the working directory of the script. *)
Theorem offline_find_links_is_relative
  (h : host) (a : Namespace) (f : gmap string node) :
  let venv_python := get_venv_python h (path_resolve h (args_data_dir a) // "venv") in
  args_offline a = true ->
  forall inv o,
    In (inv, o) (calls (snd (main h a (boot f)))) ->
    take 5 (args inv) = [venv_python; "-m"; "pip"; "install"; "esphome"] ->
    args inv = [venv_python; "-m"; "pip"; "install"; "esphome";
                "--no-index"; "--find-links"; "wheels"]
    /\ cwd inv = None.
Proof.
  cbn zeta. destruct a as [d off py]. cbn [args_offline args_data_dir].
  intros ->.
  run_script; intros inv o Hin Htake;
    cbn [app In boot calls args_offline args_python] in Hin;
    repeat match goal with
           | H : _ \/ _ |- _ => destruct H
           | H : False |- _ => destruct H
           | H : (_, _) = (inv, _) |- _ => injection H as <- _
           end;
    try discriminate;
    split; reflexivity.
Qed.

Lemma offline_find_links_is_relative_witness :
  args (pip_install_cmd "/d/venv/bin/python" true)
  = ["/d/venv/bin/python"; "-m"; "pip"; "install"; "esphome";
     "--no-index"; "--find-links"; "wheels"]
  /\ cwd (pip_install_cmd "/d/venv/bin/python" true) = None.
Proof.
  apply (offline_find_links_is_relative (Sample.linux Sample.all_fine)
           Sample.cmdline_offline ∅ eq_refl
           (pip_install_cmd "/d/venv/bin/python" true) (Exited 0 EmptyString EmptyString)).
  - vm_compute. right; right; left; reflexivity.
  - reflexivity.
Defined.

Lemma Forall2_diag {A} (R : A -> A -> Prop) (l : list A) :
  (forall x, R x x) -> Forall2 R l l.
Proof. intros HR. induction l; constructor; auto. Qed.






(** ** What a run shows *)

Ltac trace_cases :=
  repeat match goal with
         | H : _ \/ _ |- _ => destruct H
         | H : False |- _ => destruct H
         | H : (_ =? 0) = true |- _ => apply Z.eqb_eq in H; subst
         | H : Printed _ = Printed _ |- _ => injection H as H
         | H : Printed _ = ChildOutput _ _ |- _ => discriminate H
         | H : ChildOutput _ _ = Printed _ |- _ => discriminate H
         end.

(** Two lines that part ways in their fixed beginning are not equal. *)
Ltac line_mismatch :=
  match goal with
  | H : ?A = ?B :> string |- _ =>
      exfalso;
      let E := fresh "E" in
      assert (E : String.eqb A B = false) by (vm_compute; reflexivity);
      rewrite H, String.eqb_refl in E; discriminate E
  end.

(** X1. Every message [main] prints (the text of every [print] call, in
    every run and on every path through it) begins with the prefix
    ["[setup] "]. *)
Theorem every_line_has_the_setup_prefix
  (h : host) (a : Namespace) (f : gmap string node) (l : string) :
  In (Printed l) (term (snd (main h a (boot f)))) ->
  String.prefix "[setup] " l = true.
Proof.
  revert l. run_script; intros l Hin; cbn [app In boot term] in Hin;
    trace_cases; subst; vm_compute; reflexivity.
Qed.

Lemma every_line_has_the_setup_prefix_witness :
  String.prefix "[setup] " "[setup] Upgrading pip" = true.
Proof.
  apply (every_line_has_the_setup_prefix (Sample.linux Sample.all_fine) Sample.cmdline ∅).
  vm_compute. do 2 right. left. reflexivity.
Defined.

(** X2. The children of a run are started in the order of the pipeline:
    environment creation, pip upgrade, package installation, version
    report. Whatever happens, the commands started are a beginning of
    that list; no command is started twice or out of order. *)
Theorem children_follow_the_pipeline (h : host) (a : Namespace) (f : gmap string node) :
  map fst (calls (snd (main h a (boot f)))) `prefix_of` pipeline h a.
Proof.
  unfold pipeline.
  run_script; cbn [app map fst boot calls]; eexists; reflexivity.
Qed.

(** X3. A failed child ends the run: in every run, every child but the
    last one started has exited with status 0. *)
Theorem only_the_last_child_may_fail (h : host) (a : Namespace) (f : gmap string node) :
  forallb exited_ok (removelast (map snd (calls (snd (main h a (boot f)))))) = true.
Proof.
  run_script; cbn [app map snd boot calls removelast forallb exited_ok andb];
    repeat match goal with
           | H : (_ =? 0) = true |- _ => rewrite H
           end;
    reflexivity.
Qed.

(** X4. [main] returns 0 exactly in the runs whose last printed line is
    ["Setup complete!"]. *)
Theorem setup_complete_means_zero (h : host) (a : Namespace) (f : gmap string node) :
  fst (main h a (boot f)) = Ok 0
  <-> last (term (snd (main h a (boot f)))) = Some (Printed "[setup] Setup complete!").
Proof.
  run_script; cbn [app boot term last]; split; intros H;
    try reflexivity; try discriminate H;
    injection H as H; line_mismatch.
Qed.

(** X5. The last printed line is ["Installation verification failed!"]
    exactly in the runs in which the version command was started and
    exited with a non-zero status: the line tells a failed verification
    from every other outcome. *)
Theorem verification_failed_line_tells (h : host) (a : Namespace) (f : gmap string node) :
  let venv_python := get_venv_python h (path_resolve h (args_data_dir a) // "venv") in
  let run := main h a (boot f) in
  last (term (snd run)) = Some (Printed "[setup] Installation verification failed!")
  <-> exists st out err,
        st <> 0 /\ In (version_cmd venv_python, Exited st out err) (calls (snd run)).
Proof.
  cbn zeta.
  run_script; cbn [app boot term calls last In]; split.
  all: try (intros H; try discriminate H; injection H as H; line_mismatch).
  all: try (intros (st' & out' & err' & Hst' & Hin); trace_cases;
            try match goal with
                | H : (_, Exited _ _ _) = (_, Exited _ _ _) |- _ =>
                    injection H; clear H; intros; subst
                end;
            try congruence;
            unfold version_cmd, venv_cmd, pip_upgrade_cmd, pip_install_cmd in *;
            congruence).
  all: try reflexivity.
  all: intros _; do 3 eexists; split;
    [ apply Z.eqb_neq; eassumption | do 3 right; left; reflexivity ].
Qed.

(** X6. When the version command cannot be run at all ([subprocess.run]
    raises something that is not [CalledProcessError]), the verification
    step does not return [False]: the exception reaches [main], which
    prints ["Unexpected error: "] with its message, returns 1, and never
    prints ["Installation verification failed!"]. *)
Theorem verification_crash_is_unexpected
  (h : host) (a : Namespace) (f : gmap string node) (cls msg : string) :
  let venv_python := get_venv_python h (path_resolve h (args_data_dir a) // "venv") in
  let run := main h a (boot f) in
  In (version_cmd venv_python, RunRaised cls msg) (calls (snd run)) ->
  fst run = Ok 1
  /\ last (term (snd run)) = Some (Printed ("[setup] " ++ "Unexpected error: " ++ msg))
  /\ ~ In (Printed "[setup] Installation verification failed!") (term (snd run)).
Proof.
  cbn zeta. revert cls msg.
  run_script; cbn [app boot term calls last In]; intros cls' msg' Hin;
    trace_cases;
    try match goal with
        | H : (_, _) = (_, RunRaised _ _) |- _ => injection H; clear H; intros; subst
        end;
    try discriminate;
    try (unfold version_cmd, venv_cmd, pip_upgrade_cmd, pip_install_cmd in *; congruence).
  all: split; [reflexivity|split; [reflexivity|]].
  all: intros Hl; trace_cases; first [discriminate | line_mismatch].
Qed.

Lemma verification_crash_is_unexpected_witness :
  let h := Sample.linux
             (fun inv => if capture_output inv
                         then RunRaised "FileNotFoundError" "[Errno 2] No such file or directory: '/d/venv/bin/python'"
                         else Exited 0 EmptyString EmptyString) in
  fst (main h Sample.cmdline (boot ∅)) = Ok 1.
Proof.
  cbn zeta.
  refine (proj1 (verification_crash_is_unexpected _ Sample.cmdline ∅
                   "FileNotFoundError"
                   "[Errno 2] No such file or directory: '/d/venv/bin/python'" _)).
  vm_compute. do 3 right. left. reflexivity.
Defined.

(** X7. When one of the three installation children (environment
    creation, pip upgrade, package installation) exits with a positive
    status, the last line printed names the command and the status:
    ["Setup failed: Command '<argument list>' returned non-zero exit
    status <status>."]. *)
Theorem setup_failed_line_names_the_command
  (h : host) (a : Namespace) (f : gmap string node)
  (inv : invocation) (st : Z) (out err : string) :
  let run := main h a (boot f) in
  In (inv, Exited st out err) (calls (snd run)) ->
  capture_output inv = false ->
  0 < st ->
  last (term (snd run))
  = Some (Printed ("[setup] " ++ "Setup failed: " ++ "Command '" ++ Py.repr_list (args inv)
                     ++ "' returned non-zero exit status " ++ Py.dec st ++ ".")).
Proof.
  cbn zeta. revert inv st out err.
  run_script; cbn [app boot term calls last In]; intros inv st' out' err' Hin Hcap Hst';
    trace_cases;
    try match goal with
        | H : (_, _) = (_, Exited _ _ _) |- _ => injection H; clear H; intros; subst
        end;
    try discriminate; try lia;
    try (unfold version_cmd in *; cbn [capture_output] in *; discriminate).
  all: unfold exception_str;
    match goal with
    | |- context [?z <? 0] => replace (z <? 0) with false by (symmetry; apply Z.ltb_ge; lia)
    end; reflexivity.
Qed.

Lemma setup_failed_line_names_the_command_witness :
  last (term (snd (main (Sample.linux Sample.no_wheels) Sample.cmdline_offline (boot ∅))))
  = Some (Printed "[setup] Setup failed: Command '['/d/venv/bin/python', '-m', 'pip', 'install', 'esphome', '--no-index', '--find-links', 'wheels']' returned non-zero exit status 1.").
Proof.
  rewrite (setup_failed_line_names_the_command (Sample.linux Sample.no_wheels)
             Sample.cmdline_offline ∅
             (pip_install_cmd "/d/venv/bin/python" true) 1 EmptyString EmptyString).
  - vm_compute. reflexivity.
  - vm_compute. do 2 right. left. reflexivity.
  - reflexivity.
  - lia.
Defined.

(** ** Directory creation *)

Lemma grows_by_dirs_refl (f : gmap string node) : grows_by_dirs f f.
Proof. intros k. now left. Qed.

Lemma grows_by_dirs_trans (f1 f2 f3 : gmap string node) :
  grows_by_dirs f1 f2 -> grows_by_dirs f2 f3 -> grows_by_dirs f1 f3.
Proof.
  intros H12 H23 k. destruct (H12 k) as [E|[E1 E2]], (H23 k) as [E'|[E1' E2']].
  - left. congruence.
  - right. split; congruence.
  - right. split; congruence.
  - congruence.
Qed.

Lemma grows_by_dirs_insert (f : gmap string node) (k : string) :
  f !! k = None -> grows_by_dirs f (<[k:=Dir]> f).
Proof.
  intros Hk j. destruct (decide (k = j)) as [<-|N].
  - right. split; [assumption|apply lookup_insert_eq].
  - left. now rewrite lookup_insert_ne.
Qed.

Lemma grows_by_dirs_keeps (f f' : gmap string node) (k : string) (n : node) :
  grows_by_dirs f f' -> f !! k = Some n -> f' !! k = Some n.
Proof. intros Hg Hk. destruct (Hg k) as [E|[E _]]; congruence. Qed.


Lemma grows_by_dirs_is_dir (h : host) (f f' : gmap string node) (p : Path) :
  grows_by_dirs f f' -> is_dir h p f = true -> is_dir h p f' = true.
Proof.
  unfold is_dir, node_at. intros Hg. destruct (parts p); [easy|].
  destruct (Hg (Path_str h p)) as [->|[-> _]]; easy.
Qed.

Lemma lineage_self (p : Path) : In p (lineage p).
Proof.
  unfold lineage. destruct p as [a l]. cbn [anchor parts].
  destruct (rev l) as [|x rest] eqn:E; cbn [lineage_rev]; left;
    rewrite <- E, rev_involutive; reflexivity.
Qed.

Lemma first_obstacle_file (h : host) (way : list Path) (f : gmap string node) :
  first_obstacle h way f = Some ENOTDIR ->
  exists q, In q way /\ not_a_file h f q = false.
Proof.
  induction way as [|q way IH]; cbn [first_obstacle]; [discriminate|].
  destruct (node_at h q f) as [[|c]|] eqn:Eq.
  - intros H. destruct (IH H) as (q' & Hin & Hq'). exists q'. split; [now right|assumption].
  - intros _. exists q. split; [now left|]. unfold not_a_file. now rewrite Eq.
  - discriminate.
Qed.

(** The error for a missing parent is [ENOENT], or [ENOTDIR] when a
    regular file stands above it. *)
Lemma missing_parent_errno_cases (h : host) (d : Path) (f : gmap string node) :
  missing_parent_errno h d f = ENOENT
  \/ (missing_parent_errno h d f = ENOTDIR
      /\ exists q, In q (lineage d) /\ not_a_file h f q = false).
Proof.
  unfold missing_parent_errno.
  destruct (first_obstacle h (rev (lineage d)) f) as [[]|] eqn:E; auto.
  right. split; [reflexivity|].
  apply first_obstacle_file in E as (q & Hin & Hq). exists q.
  split; [now apply in_rev|assumption].
Qed.

(** The two ways [os.mkdir] ends. *)
Lemma os_mkdir_inv (h : host) (p : Path) (f : gmap string node)
  (r : result unit) (f' : gmap string node) :
  os_mkdir h p f = (r, f') ->
  (r = Ok tt /\ f' = <[Path_str h p := Dir]> f /\ f !! Path_str h p = None
   /\ node_at h p f = None /\ node_at h (parent p) f = Some Dir)
  \/ (exists errno, r = Raise (OSError errno (Path_str h p)) /\ f' = f
       /\ (errno = ENOENT -> node_at h (parent p) f = None)
       /\ (errno = ENOTDIR ->
           is_dir h (parent p) f = false
           /\ exists q, In q (lineage (parent p)) /\ not_a_file h f q = false)
       /\ (errno = EEXIST -> node_at h (parent p) f = Some Dir /\ node_at h p f <> None)
       /\ errno <> EISDIR).
Proof.
  unfold os_mkdir.
  destruct (node_at h (parent p) f) as [[|c]|] eqn:Epar.
  - destruct (node_at h p f) as [n|] eqn:Ep; intros [= <- <-].
    + right. exists EEXIST. repeat split; try discriminate; easy.
    + left. repeat split. unfold node_at in Ep. now destruct (parts p).
  - intros [= <- <-]. right. exists ENOTDIR. repeat split; try discriminate.
    + unfold is_dir. now rewrite Epar.
    + exists (parent p). split; [apply lineage_self|]. unfold not_a_file. now rewrite Epar.
  - intros [= <- <-]. right.
    destruct (missing_parent_errno_cases h (parent p) f) as [->|[-> Hq]].
    + exists ENOENT. repeat split; discriminate.
    + exists ENOTDIR. repeat split; try discriminate; [|assumption].
      unfold is_dir. now rewrite Epar.
Qed.

(** The ways [Path.mkdir] without [parents] ends. *)
Lemma Path_mkdir_inv (h : host) (p : Path) (b : bool) (f : gmap string node)
  (r : result unit) (f' : gmap string node) :
  Path_mkdir h p b f = (r, f') ->
  (r = Ok tt /\ is_dir h p f' = true /\ grows_by_dirs f f'
   /\ (node_at h p f = None \/ (b = true /\ is_dir h p f = true)))
  \/ (exists errno, r = Raise (OSError errno (Path_str h p)) /\ f' = f
       /\ (errno = ENOENT -> node_at h (parent p) f = None)
       /\ (errno = EEXIST -> (b = false \/ is_dir h p f = false) /\ node_at h p f <> None)
       /\ (errno = ENOTDIR -> is_dir h (parent p) f = false)).
Proof.
  unfold Path_mkdir.
  destruct (os_mkdir h p f) as [r0 f0] eqn:E.
  apply os_mkdir_inv in E as [(-> & -> & Hk & Hp & Hpar)|(errno & -> & -> & H1 & H2 & H3 & H4)].
  - intros [= <- <-]. left. repeat split; auto using grows_by_dirs_insert.
    unfold is_dir, node_at in *. destruct (parts p); [discriminate|].
    now rewrite lookup_insert_eq.
  - destruct errno; try congruence.
    + destruct (b && is_dir h p f) eqn:Eb; intros [= <- <-].
      * apply andb_prop in Eb as [-> Hd]. left.
        repeat split; auto using grows_by_dirs_refl.
      * right. exists EEXIST. repeat split; try discriminate.
        -- apply andb_false_iff in Eb. tauto.
        -- now apply H3.
    + intros [= <- <-]. right. exists ENOENT. repeat split; auto; discriminate.
    + destruct (b && is_dir h p f) eqn:Eb; intros [= <- <-].
      * apply andb_prop in Eb as [-> Hd]. left.
        repeat split; auto using grows_by_dirs_refl.
      * right. exists ENOTDIR. repeat split; try discriminate.
        intros _. now apply H2.
Qed.

Lemma is_dir_after_insert (h : host) (p : Path) (f : gmap string node) :
  node_at h p f = None -> is_dir h p (<[Path_str h p := Dir]> f) = true.
Proof.
  unfold is_dir, node_at. destruct (parts p); [discriminate|].
  intros _. now rewrite lookup_insert_eq.
Qed.


Lemma oserror_outcome (P : Prop) (f : gmap string node) (errno : os_errno) (fn : string) :
  grows_by_dirs f f
  /\ (@Raise unit (OSError errno fn) = Ok tt -> P)
  /\ (forall e, @Raise unit (OSError errno fn) = Raise e ->
                exists errno fn, e = OSError errno fn).
Proof.
  split; [apply grows_by_dirs_refl|]. split; [discriminate|].
  intros e [= <-]. eauto.
Qed.

(** The ways [Path.mkdir] with [parents] ends. *)
Lemma Path_mkdir_parents_rev_inv (h : host) (a : string) (rparts : list string) :
  forall (b : bool) (f : gmap string node) (r : result unit) (f' : gmap string node),
    Path_mkdir_parents_rev h a rparts b f = (r, f') ->
    grows_by_dirs f f'
    /\ (r = Ok tt -> is_dir h (mkPath a (rev rparts)) f' = true)
    /\ (forall e, r = Raise e -> exists errno fn, e = OSError errno fn).
Proof.
  induction rparts as [|x rest IH]; intros b f r f'; cbn [Path_mkdir_parents_rev];
    destruct (os_mkdir h _ f) as [r0 f0] eqn:E;
    apply os_mkdir_inv in E
        as [(-> & -> & Hk & Hp & Hpar)|(errno & -> & -> & H1 & H2 & H3 & H4)].
  - intros [= <- <-]. split; [now apply grows_by_dirs_insert|].
    split; [intros _; now apply is_dir_after_insert | discriminate].
  - destruct errno; try congruence.
    + destruct (b && is_dir h _ f) eqn:Eb; intros [= <- <-]; [|apply oserror_outcome].
      apply andb_prop in Eb as [_ Hd].
      split; [apply grows_by_dirs_refl|]. split; [auto | discriminate].
    + intros [= <- <-]. apply oserror_outcome.
    + destruct (b && is_dir h _ f) eqn:Eb; intros [= <- <-]; [|apply oserror_outcome].
      apply andb_prop in Eb as [_ Hd].
      split; [apply grows_by_dirs_refl|]. split; [auto | discriminate].
  - intros [= <- <-]. split; [now apply grows_by_dirs_insert|].
    split; [intros _; now apply is_dir_after_insert | discriminate].
  - destruct errno; try congruence.
    + destruct (b && is_dir h _ f) eqn:Eb; intros [= <- <-]; [|apply oserror_outcome].
      apply andb_prop in Eb as [_ Hd].
      split; [apply grows_by_dirs_refl|]. split; [auto | discriminate].
    + destruct (Path_mkdir_parents_rev h a rest true f) as [[[]|e1] f1] eqn:E1;
        apply IH in E1 as (Hg1 & Hd1 & He1).
      * intros E2. apply Path_mkdir_inv in E2
          as [(-> & Hd2 & Hg2 & _)|(errno & -> & -> & _)].
        -- split; [eapply grows_by_dirs_trans; eauto|]. split; [auto | discriminate].
        -- split; [assumption|]. split; [discriminate|]. intros e [= <-]. eauto.
      * intros [= <- <-]. split; [assumption|]. split; [discriminate|].
        intros e [= <-]. now apply He1.
    + destruct (b && is_dir h _ f) eqn:Eb; intros [= <- <-]; [|apply oserror_outcome].
      apply andb_prop in Eb as [_ Hd].
      split; [apply grows_by_dirs_refl|]. split; [auto | discriminate].
Qed.


Lemma write_text_w_inv (h : host) (p : Path) (c : string) (f : gmap string node)
  (r : result unit) (f' : gmap string node) :
  write_text_w h p c f = (r, f') ->
  (r = Ok tt /\ f' = <[Path_str h p := File c]> f)
  \/ (exists errno, r = Raise (OSError errno (Path_str h p)) /\ f' = f).
Proof.
  unfold write_text_w.
  destruct (node_at h (parent p) f) as [[|c0]|];
    [destruct (node_at h p f) as [[|c1]|]| |];
    intros [= <- <-]; eauto.
Qed.

Lemma Path_mkdir_parents_inv (h : host) (p : Path) (b : bool) (f : gmap string node)
  (r : result unit) (f' : gmap string node) :
  Path_mkdir_parents h p b f = (r, f') ->
  grows_by_dirs f f'
  /\ (r = Ok tt -> is_dir h p f' = true)
  /\ (forall e, r = Raise e -> exists errno fn, e = OSError errno fn).
Proof.
  unfold Path_mkdir_parents. intros E.
  apply Path_mkdir_parents_rev_inv in E. rewrite rev_involutive in E.
  now destruct p.
Qed.

(** X8. The creation of [data_dir] never removes or changes what is in
    the filesystem: whether it succeeds or raises, every entry that was
    there is still there, and whatever was added is a directory (parents
    made before a failure stay). When it succeeds, [data_dir] is a
    directory; when it fails, the exception is an [OSError]. *)
Theorem data_dir_creation_only_adds_directories
  (h : host) (p : Path) (exist_ok : bool) (f : gmap string node) :
  let r := Path_mkdir_parents h p exist_ok f in
  (forall k n, f !! k = Some n -> snd r !! k = Some n)
  /\ (forall k, snd r !! k <> f !! k -> snd r !! k = Some Dir)
  /\ (fst r = Ok tt -> is_dir h p (snd r) = true)
  /\ (forall e, fst r = Raise e -> exists errno fn, e = OSError errno fn).
Proof.
  cbn zeta. destruct (Path_mkdir_parents h p exist_ok f) as [r f'] eqn:E.
  apply Path_mkdir_parents_inv in E as (Hg & Hd & He). cbn [fst snd].
  repeat split; auto.
  - intros k n. now apply grows_by_dirs_keeps.
  - intros k Hk. destruct (Hg k) as [?|[_ ?]]; congruence.
Qed.

(** X9. When [data_dir] names a regular file in a directory, [main] does
    not return: the [FileExistsError] of the creation leaves it, with
    nothing printed, no child started and the filesystem untouched. *)
Theorem data_dir_regular_file_raises
  (h : host) (a : Namespace) (f : gmap string node) (c : string) :
  let data_dir := path_resolve h (args_data_dir a) in
  node_at h data_dir f = Some (File c) ->
  is_dir h (parent data_dir) f = true ->
  main h a (boot f) = (Raise (OSError EEXIST (Path_str h data_dir)), boot f).
Proof.
  cbn zeta. set (p := path_resolve h (args_data_dir a)). intros Hfile Hpar.
  assert (Hmk : Path_mkdir_parents h p true f = (Raise (OSError EEXIST (Path_str h p)), f)).
  { unfold Path_mkdir_parents.
    assert (Hp : mkPath (anchor p) (rev (rev (parts p))) = p)
      by (rewrite rev_involutive; now destruct p).
    assert (Hos : os_mkdir h p f = (Raise (OSError EEXIST (Path_str h p)), f)).
    { unfold os_mkdir. unfold is_dir in Hpar.
      destruct (node_at h (parent p) f) as [[|?]|]; try discriminate.
      now rewrite Hfile. }
    assert (Hnd : is_dir h p f = false) by (unfold is_dir; now rewrite Hfile).
    destruct (rev (parts p)) as [|x rest]; cbn [Path_mkdir_parents_rev];
      rewrite Hp, Hos, Hnd; reflexivity. }
  unfold main, bind, on_fs, boot. cbn [fs term calls]. fold p. now rewrite Hmk.
Qed.

Lemma data_dir_regular_file_raises_witness :
  main (Sample.linux Sample.all_fine) Sample.cmdline (boot {[ "/d" := File "x" ]})
  = (Raise (OSError EEXIST "/d"), boot {[ "/d" := File "x" ]}).
Proof.
  apply (data_dir_regular_file_raises (Sample.linux Sample.all_fine) Sample.cmdline
           {[ "/d" := File "x" ]} "x"); vm_compute; reflexivity.
Defined.



(** ** What the script leaves on disk *)

Lemma write_text_w_frame (h : host) (p : Path) (c : string) (f : gmap string node)
  (r : result unit) (f' : gmap string node) :
  write_text_w h p c f = (r, f') ->
  forall j, j <> Path_str h p -> f' !! j = f !! j.
Proof.
  intros E j Hj. apply write_text_w_inv in E as [[_ ->]|(errno & _ & ->)]; [|reflexivity].
  now rewrite lookup_insert_ne.
Qed.

Lemma Path_mkdir_grows (h : host) (p : Path) (b : bool) (f : gmap string node)
  (r : result unit) (f' : gmap string node) :
  Path_mkdir h p b f = (r, f') -> grows_by_dirs f f'.
Proof.
  intros E. apply Path_mkdir_inv in E as [(_ & _ & Hg & _)|(errno & _ & -> & _)];
    [assumption | apply grows_by_dirs_refl].
Qed.

Lemma Path_mkdir_parents_grows (h : host) (p : Path) (b : bool) (f : gmap string node)
  (r : result unit) (f' : gmap string node) :
  Path_mkdir_parents h p b f = (r, f') -> grows_by_dirs f f'.
Proof. intros E. now apply Path_mkdir_parents_inv in E. Qed.

(** Turn the answers met along a run into facts about the filesystems. *)
Ltac fs_facts Hq :=
  cbn [boot fs] in *;
  repeat match goal with
         | H : host_run ?h ?g ?i = (_, ?g') |- _ =>
             let Q := fresh "Q" in
             pose proof (Hq g i) as Q; rewrite H in Q; cbn [snd] in Q; subst g'; clear H
         | H : Path_mkdir_parents _ _ _ _ = _ |- _ => apply Path_mkdir_parents_grows in H
         | H : Path_mkdir _ _ _ _ = _ |- _ => apply Path_mkdir_grows in H
         | H : write_text_w ?h ?p ?c ?g = (?r, ?g') |- _ =>
             pose proof (write_text_w_frame h p c g r g' H); clear H
         end.

Ltac keeps_chain :=
  repeat match goal with
         | H : forall j, j <> ?c -> ?g' !! j = ?g !! j |- ?g' !! _ = Some _ =>
             rewrite H by assumption
         end;
  repeat (eapply grows_by_dirs_keeps; [eassumption|]);
  try assumption.

(** X11. The script itself never deletes or rewrites anything but its
    configuration file: on a host whose children leave the filesystem
    alone, every entry other than [platformio_env.sh] that was there
    before the run is there, unchanged, after it, however the run ends
    (nothing is rolled back, nothing else is touched). *)
Theorem main_keeps_what_is_there
  (h : host) (a : Namespace) (f : gmap string node) (k : string) (n : node) :
  quiet_host h ->
  k <> Path_str h (path_resolve h (args_data_dir a) // "platformio_env.sh") ->
  f !! k = Some n ->
  fs (snd (main h a (boot f))) !! k = Some n.
Proof.
  intros Hq. revert k n.
  run_script; intros k n Hk Hn; fs_facts Hq; keeps_chain.
Qed.

Lemma main_keeps_what_is_there_witness :
  fs (snd (main (Sample.linux Sample.version_fails) Sample.cmdline
             (boot {[ "/d" := Dir; "/d/notes.txt" := File "keep" ]})))
    !! "/d/notes.txt"
  = Some (File "keep").
Proof.
  apply (main_keeps_what_is_there (Sample.linux Sample.version_fails) Sample.cmdline).
  - intros f inv. reflexivity.
  - vm_compute. discriminate.
  - vm_compute. reflexivity.
Defined.

(** X12. A run that returns 0 leaves the cache directory and the
    configuration file behind: provided the version command does not
    touch the filesystem, after the run [platformio] under the resolved
    [data_dir] is a directory and [platformio_env.sh] holds the
    [PLATFORMIO_CORE_DIR] line. *)
Theorem successful_run_leaves_configuration
  (h : host) (a : Namespace) (f : gmap string node) :
  let data_dir := path_resolve h (args_data_dir a) in
  let venv_python := get_venv_python h (data_dir // "venv") in
  let run := main h a (boot f) in
  (forall g, snd (host_run h g (version_cmd venv_python)) = g) ->
  fst run = Ok 0 ->
  fs (snd run) !! Path_str h (data_dir // "platformio") = Some Dir
  /\ fs (snd run) !! Path_str h (data_dir // "platformio_env.sh")
     = Some (File ("export PLATFORMIO_CORE_DIR=" ++ Path_str h (data_dir // "platformio")
                     ++ String "010"%char EmptyString)).
Proof.
  cbn zeta. pose proof (platformio_paths_differ h (path_resolve h (args_data_dir a))) as Hne.
  run_script; intros Hv H0; try discriminate H0.
  match goal with
  | H : host_run h ?g (version_cmd _) = (_, ?g') |- _ =>
      pose proof (Hv g) as Q; rewrite H in Q; cbn [snd] in Q; subst g'
  end.
  match goal with
  | H : write_text_w _ _ _ _ = _ |- _ => apply write_text_w_inv in H as [[_ ->]|(? & ? & _)]
  end; [|discriminate].
  match goal with
  | H : Path_mkdir _ _ _ _ = _ |- _ =>
      apply Path_mkdir_inv in H as [(_ & Hd & _)|(? & ? & _)]
  end; [|discriminate].
  unfold is_dir in Hd. rewrite node_at_joinpath in Hd.
  split.
  - rewrite lookup_insert_ne by congruence.
    destruct (_ !! Path_str h (_ // "platformio")) as [[|?]|]; congruence.
  - apply lookup_insert_eq.
Qed.

Lemma successful_run_leaves_configuration_witness :
  fs (snd (main (Sample.linux Sample.all_fine) Sample.cmdline (boot ∅)))
    !! "/d/platformio_env.sh"
  = Some (File ("export PLATFORMIO_CORE_DIR=/d/platformio" ++ String "010"%char EmptyString)).
Proof.
  apply (successful_run_leaves_configuration (Sample.linux Sample.all_fine) Sample.cmdline ∅).
  - intros g. reflexivity.
  - vm_compute. reflexivity.
Defined.

(** ** The version line *)

Lemma lstrip_starts (s : string) : starts_with_space (Py.lstrip s) = false.
Proof.
  induction s as [|c s IH]; [reflexivity|]. cbn [Py.lstrip].
  destruct (Py.is_space c) eqn:Ec; [assumption|]. cbn [starts_with_space]. assumption.
Qed.

Lemma rstrip_ends (s : string) : ends_with_space (Py.rstrip s) = false.
Proof.
  induction s as [|c s IH]; [reflexivity|]. cbn [Py.rstrip].
  destruct (Py.rstrip s) as [|d r] eqn:Er.
  - destruct (Py.is_space c) eqn:Ec; [reflexivity|]. cbn [ends_with_space]. assumption.
  - exact IH.
Qed.

Lemma rstrip_starts (s : string) :
  starts_with_space s = false -> starts_with_space (Py.rstrip s) = false.
Proof.
  destruct s as [|c s]; [reflexivity|]. cbn [starts_with_space Py.rstrip]. intros Hc.
  destruct (Py.rstrip s); [rewrite Hc|]; cbn [starts_with_space]; assumption.
Qed.

Lemma lstrip_decomp (s : string) :
  exists lead, s = lead ++ Py.lstrip s /\ all_space lead = true.
Proof.
  induction s as [|c s (lead & IH & Hl)]; [now exists EmptyString|].
  cbn [Py.lstrip]. destruct (Py.is_space c) eqn:Ec.
  - exists (String c lead). split.
    + change (String c s = String c (lead ++ Py.lstrip s)). now rewrite <- IH.
    + cbn [all_space]. now rewrite Ec.
  - now exists EmptyString.
Qed.

Lemma rstrip_decomp (s : string) :
  exists trail, s = Py.rstrip s ++ trail /\ all_space trail = true.
Proof.
  induction s as [|c s (trail & IH & Ht)]; [now exists EmptyString|].
  cbn [Py.rstrip]. destruct (Py.rstrip s) as [|d r] eqn:Er.
  - change (EmptyString ++ trail) with trail in IH. subst s.
    destruct (Py.is_space c) eqn:Ec.
    + exists (String c trail). split; [reflexivity|]. cbn [all_space]. now rewrite Ec.
    + exists trail. split; [reflexivity|assumption].
  - exists trail. split; [|assumption].
    change (String c s = String c (String d r ++ trail)). now rewrite <- IH.
Qed.

(** X13. On a successful verification the version is printed trimmed:
    [verify_installation] returns [True] and the text it prints after
    ["ESPHome installed: "] is the standard output of the version
    command without the white space at its two ends: the output is that
    text between a run of white space and another (the final newline),
    and the text neither begins nor ends with white space. *)
Theorem logged_version_is_trimmed
  (h : host) (venv_python : string) (w : world) (out err : string) (f' : gmap string node) :
  host_run h (fs w) (version_cmd venv_python) = (Exited 0 out err, f') ->
  exists lead version trail,
    out = lead ++ version ++ trail
    /\ all_space lead = true /\ all_space trail = true
    /\ starts_with_space version = false
    /\ ends_with_space version = false
    /\ fst (verify_installation h venv_python w) = Ok true
    /\ term (snd (verify_installation h venv_python w))
       = (term w ++ [Printed "[setup] Verifying installation";
                     Printed ("[setup] " ++ "ESPHome installed: " ++ version)])%list.
Proof.
  intros Hrun.
  destruct (lstrip_decomp out) as (lead & Hlead & Hl).
  destruct (rstrip_decomp (Py.lstrip out)) as (trail & Htrail & Ht).
  exists lead, (Py.strip out), trail. unfold Py.strip.
  split; [now rewrite <- Htrail|].
  split; [assumption|]. split; [assumption|].
  split; [apply rstrip_starts, lstrip_starts|].
  split; [apply rstrip_ends|].
  script_unfold. rewrite Hrun.
  cbn [Z.eqb andb negb cp_stdout fs term calls fst snd].
  split; [reflexivity|]. now rewrite <- app_assoc.
Qed.

Lemma logged_version_is_trimmed_witness :
  exists lead version trail,
    "  Version: 2024.6.0" ++ String "010"%char EmptyString = lead ++ version ++ trail
    /\ starts_with_space version = false
    /\ ends_with_space version = false
    /\ last (term (snd (verify_installation
                          (Sample.linux (fun _ => Exited 0 ("  Version: 2024.6.0" ++ String "010"%char EmptyString) EmptyString))
                          "/d/venv/bin/python" (boot ∅))))
       = Some (Printed ("[setup] " ++ "ESPHome installed: " ++ version)).
Proof.
  destruct (logged_version_is_trimmed
              (Sample.linux (fun _ => Exited 0 ("  Version: 2024.6.0" ++ String "010"%char EmptyString) EmptyString))
              "/d/venv/bin/python"
              (boot ∅) ("  Version: 2024.6.0" ++ String "010"%char EmptyString) EmptyString ∅
              eq_refl) as (lead & v & trail & Hout & _ & _ & Hs & He & _ & Hterm).
  exists lead, v, trail. repeat split; try assumption.
  rewrite Hterm. reflexivity.
Defined.

(** ** The interpreter of the environment *)

Lemma Path_str_joinpath (h : host) (p : Path) (x : string) :
  parts p <> [] -> Path_str h (p // x) = Path_str h p ++ sep h ++ x.
Proof.
  unfold Path_str, joinpath. cbn [anchor parts]. intros Hp.
  rewrite join_snoc. destruct (parts p); [congruence|].
  now rewrite append_assoc.
Qed.

Lemma get_venv_python_under (h : host) (data_dir : Path) :
  Path_str h (data_dir // "venv") ++ sep h
    ++ (if String.eqb (sys_platform h) "win32"
        then "Scripts" ++ sep h ++ "python.exe"
        else "bin" ++ sep h ++ "python")
  = get_venv_python h (data_dir // "venv").
Proof.
  assert (Hv : parts (data_dir // "venv") <> []).
  { unfold joinpath. cbn [parts]. intros E. now apply app_eq_nil in E as [_ E]. }
  assert (Hs : forall x, parts ((data_dir // "venv") // x) <> []).
  { intros x. unfold joinpath. cbn [parts]. intros E. now apply app_eq_nil in E as [_ E]. }
  unfold get_venv_python.
  destruct (String.eqb (sys_platform h) "win32");
    rewrite (Path_str_joinpath h _ _ (Hs _)), (Path_str_joinpath h _ _ Hv), !append_assoc;
    reflexivity.
Qed.

(** X14. In every run of [main], the interpreter that runs pip and the
    version command lies inside the environment that was asked for:
    the first child is [<python> -m venv <target>] with [<target>] the
    rendering of [data_dir/venv], and the program of every later child
    (pip upgrade, package installation, version report) is [<target>]
    followed by the separator and [Scripts], separator, [python.exe] on
    win32, [bin], separator, [python] elsewhere. *)
Theorem interpreter_is_inside_the_environment
  (h : host) (a : Namespace) (f : gmap string node) :
  let target := Path_str h (path_resolve h (args_data_dir a) // "venv") in
  let interpreter :=
    target ++ sep h
      ++ (if String.eqb (sys_platform h) "win32"
          then "Scripts" ++ sep h ++ "python.exe"
          else "bin" ++ sep h ++ "python") in
  map (fun c => args (fst c)) (calls (snd (main h a (boot f))))
  `prefix_of`
    [[args_python a; "-m"; "venv"; target];
     [interpreter; "-m"; "pip"; "install"; "--upgrade"; "pip"];
     ([interpreter; "-m"; "pip"; "install"; "esphome"]
        ++ (if args_offline a then ["--no-index"; "--find-links"; "wheels"] else []))%list;
     [interpreter; "-m"; "esphome"; "version"]].
Proof.
  cbn zeta. rewrite (get_venv_python_under h (path_resolve h (args_data_dir a))).
  run_script; cbn [app map fst boot calls args]; unfold pip_install_args;
    destruct (args_offline a); cbn [app]; eexists; reflexivity.
Qed.

(** ** A failed configuration *)

Lemma configure_platformio_raises_oserror
  (h : host) (venv_python : string) (data_dir : Path) (w w' : world) (e : exception) :
  configure_platformio h venv_python data_dir w = (Raise e, w') ->
  calls w' = calls w /\ exists errno fn, e = OSError errno fn.
Proof.
  unfold configure_platformio, bind, on_fs, log. cbn [fs term calls].
  destruct (Path_mkdir h _ true (fs w)) as [r1 f1] eqn:E1.
  apply Path_mkdir_inv in E1 as [(-> & _)|(errno & -> & -> & _)].
  - cbn [fs term calls].
    destruct (write_text_w h _ _ f1) as [r2 f2] eqn:E2.
    apply write_text_w_inv in E2 as [(-> & ->)|(errno & -> & ->)].
    + discriminate.
    + intros [= <- <-]. eauto.
  - intros [= <- <-]. eauto.
Qed.

(** X15. When the configuration step fails, the failure is an [OSError]
    of the filesystem: [main] reports it as ["Unexpected error: "] with
    the operating system's message and the path, returns 1, and the
    version command is never started. *)
Theorem configuration_failure_is_unexpected
  (h : host) (a : Namespace) (w : world)
  (f0 : gmap string node) (w1 w2 w3 : world) (e : exception) :
  let data_dir := path_resolve h (args_data_dir a) in
  let venv_dir := data_dir // "venv" in
  let venv_python := get_venv_python h venv_dir in
  Path_mkdir_parents h data_dir true (fs w) = (Ok tt, f0) ->
  create_venv h venv_dir (args_python a) (mkWorld f0 (term w) (calls w)) = (Ok tt, w1) ->
  install_esphome h venv_python (args_offline a) w1 = (Ok tt, w2) ->
  configure_platformio h venv_python data_dir w2 = (Raise e, w3) ->
  exists errno fn,
    e = OSError errno fn
    /\ main h a w
       = (Ok 1,
          mkWorld (fs w3)
            (term w3 ++ [Printed ("[setup] " ++ "Unexpected error: "
                                    ++ os_strerror h errno ++ ": " ++ Py.repr fn)])
            (calls w2)).
Proof.
  cbn zeta. intros Hmk Hvenv Hinst Hconf.
  destruct (configure_platformio_raises_oserror _ _ _ _ _ _ Hconf)
    as (Hcalls & errno & fn & ->).
  exists errno, fn. split; [reflexivity|].
  unfold main, main_try, try_except, bind, on_fs.
  rewrite Hmk, Hvenv, Hinst, Hconf. cbn [is_CalledProcessError].
  unfold log, ret, exception_str. now rewrite Hcalls.
Qed.

Lemma configuration_failure_is_unexpected_witness :
  exists w',
    main (Sample.linux Sample.all_fine) Sample.cmdline
      (boot {[ "/d" := Dir; "/d/platformio" := File "x" ]}) = (Ok 1, w')
    /\ last (term w')
       = Some (Printed "[setup] Unexpected error: [Errno 17] File exists: '/d/platformio'").
Proof.
  pose (h := Sample.linux Sample.all_fine).
  pose (d := mkPath "/" ["d"]).
  pose (vp := "/d/venv/bin/python").
  pose (f := {[ "/d" := Dir; "/d/platformio" := File "x" ]} : gmap string node).
  let f0 := eval vm_compute in (snd (Path_mkdir_parents h d true f)) in
  let w1 := eval vm_compute in (snd (create_venv h (d // "venv") "python3" (mkWorld f0 [] []))) in
  let w2 := eval vm_compute in (snd (install_esphome h vp false w1)) in
  let w3 := eval vm_compute in (snd (configure_platformio h vp d w2)) in
  destruct (configuration_failure_is_unexpected h Sample.cmdline (boot f) f0 w1 w2 w3
              (OSError EEXIST "/d/platformio"))
    as (errno & fn & He & Hrun);
    [vm_compute; reflexivity | vm_compute; reflexivity | vm_compute; reflexivity
    | vm_compute; reflexivity | ].
  injection He as <- <-.
  eexists. split; [exact Hrun|]. vm_compute. reflexivity.
Defined.

(** ** Running the script again *)

Lemma append_eq_self (s t : string) : s ++ t = s -> t = EmptyString.
Proof.
  induction s as [|c s IH]; [easy|].
  change (String c (s ++ t) = String c s -> t = EmptyString).
  intros [= E]. auto.
Qed.

Lemma Path_str_joinpath_neq (h : host) (p : Path) (x : string) :
  parts p <> [] -> Path_str h (p // x) <> Path_str h p.
Proof.
  intros Hp E. rewrite Path_str_joinpath in E by assumption.
  apply append_eq_self in E. unfold sep in E.
  destruct (is_win32 h); discriminate E.
Qed.

Lemma is_dir_insert_child (h : host) (p : Path) (x : string) (n : node)
  (f : gmap string node) :
  is_dir h p f = true -> is_dir h p (<[Path_str h (p // x) := n]> f) = true.
Proof.
  unfold is_dir, node_at. destruct (parts p) eqn:Ep; [easy|].
  rewrite lookup_insert_ne; [easy|].
  apply Path_str_joinpath_neq. congruence.
Qed.

(** X16. The configuration step can be repeated: once it has completed,
    running it again, with any interpreter path, completes too and leaves
    the filesystem exactly as the first run left it. *)
Theorem configure_platformio_again
  (h : host) (venv_python venv_python' : string) (data_dir : Path) (w w1 : world) :
  configure_platformio h venv_python data_dir w = (Ok tt, w1) ->
  exists w2,
    configure_platformio h venv_python' data_dir w1 = (Ok tt, w2)
    /\ fs w2 = fs w1.
Proof.
  intros H1. pose proof (platformio_paths_differ h data_dir) as Hne.
  pose proof (configure_platformio_completes _ _ _ _ _ H1) as C1.
  rewrite (configure_platformio_run _ _ _ _ C1) in H1. injection H1 as <-.
  unfold can_configure in C1.
  apply andb_prop in C1 as [C1 _]. apply andb_prop in C1 as [Hd _].
  eexists. split.
  - apply configure_platformio_run. unfold can_configure. cbn [fs].
    rewrite (is_dir_insert_child h data_dir "platformio_env.sh" _ _
               (is_dir_insert_child h data_dir "platformio" _ _ Hd)).
    rewrite lookup_insert_eq, lookup_insert_ne, lookup_insert_eq by congruence.
    reflexivity.
  - cbn [fs].
    rewrite (insert_id _ (Path_str h (data_dir // "platformio")) Dir).
    + apply insert_id, lookup_insert_eq.
    + rewrite lookup_insert_ne by congruence. apply lookup_insert_eq.
Qed.

Lemma configure_platformio_again_witness :
  exists w2,
    configure_platformio (Sample.linux Sample.all_fine) "/usr/bin/python3" (mkPath "/" ["d"])
      (snd (configure_platformio (Sample.linux Sample.all_fine) "/d/venv/bin/python"
              (mkPath "/" ["d"]) (boot {[ "/d" := Dir ]})))
    = (Ok tt, w2).
Proof.
  destruct (configure_platformio_again (Sample.linux Sample.all_fine)
              "/d/venv/bin/python" "/usr/bin/python3" (mkPath "/" ["d"])
              (boot {[ "/d" := Dir ]})
              (snd (configure_platformio (Sample.linux Sample.all_fine) "/d/venv/bin/python"
                      (mkPath "/" ["d"]) (boot {[ "/d" := Dir ]}))))
    as (w2 & Hrun & _).
  - vm_compute. reflexivity.
  - exists w2. exact Hrun.
Defined.

(** X17. Creating a [data_dir] that is there already changes nothing:
    when [data_dir] is a directory in an existing directory, the call
    with [parents] and [exist_ok] returns and the filesystem is the one
    it found. *)
Theorem data_dir_creation_again (h : host) (p : Path) (f : gmap string node) :
  is_dir h p f = true ->
  is_dir h (parent p) f = true ->
  Path_mkdir_parents h p true f = (Ok tt, f).
Proof.
  intros Hd Hpar. unfold Path_mkdir_parents.
  assert (Hp : mkPath (anchor p) (rev (rev (parts p))) = p)
    by (rewrite rev_involutive; now destruct p).
  assert (Hos : os_mkdir h p f = (Raise (OSError EEXIST (Path_str h p)), f)).
  { unfold os_mkdir. unfold is_dir in Hd, Hpar.
    destruct (node_at h (parent p) f) as [[|?]|]; try discriminate.
    destruct (node_at h p f) as [[|?]|]; try discriminate. reflexivity. }
  destruct (rev (parts p)) as [|x rest]; cbn [Path_mkdir_parents_rev];
    rewrite Hp, Hos, Hd; reflexivity.
Qed.

Lemma data_dir_creation_again_witness :
  Path_mkdir_parents (Sample.linux Sample.all_fine) (mkPath "/" ["srv"; "esphome"]) true
    {[ "/srv" := Dir; "/srv/esphome" := Dir; "/srv/esphome/venv" := Dir ]}
  = (Ok tt, {[ "/srv" := Dir; "/srv/esphome" := Dir; "/srv/esphome/venv" := Dir ]}).
Proof.
  apply data_dir_creation_again; vm_compute; reflexivity.
Defined.
